(** * Asset Allocation Dashboard: the allocation engine of [src/src/app.py]

    A shallow embedding of the computation functions of the dashboard
    ([compute_tactical_allocations], [input_active_weights],
    [compute_level_2_tactical_allocations], [display_level_1_allocations],
    [display_level_2_allocations], [compute_total_allocations]) and of the
    part of [main] that wires them together.

    Conventions of the embedding.
    - Scalars.  The program computes with Python numbers (JSON integers and
      binary64 floats).  Following the data model, which speaks of real
      scalars, they are embedded as exact rationals [Qc]; rounding of
      binary64 arithmetic is outside the model.
    - Dictionaries.  A Python [dict] keeps insertion order, and that order
      becomes the row order of the tables, so a dict is an association list;
      [d[k]] is [getitem], which raises [KeyError] on a missing key.
    - Exceptions.  Fallible code lives in the [result] monad.
    - User interface.  Streamlit calls are events appended to a log; what the
      user selects on a slider is given by an oracle. *)

From Stdlib Require Import List String Ascii Bool Arith Lia Permutation.
From Stdlib Require Import QArith Qcanon Qcabs Field.
Import ListNotations.

Local Open Scope string_scope.
Local Open Scope Qc_scope.

(** ** Scalars *)

Abbreviation num := Qc.

Definition num_of_Z (z : Z) : num := Q2Qc (inject_Z z).
Definition hundred : num := num_of_Z 100.

(** Decimal literal [n / d], e.g. [dec 186 10] for 18.6. *)
Definition dec (n : Z) (d : positive) : num := Q2Qc (n # d).

Definition num_eqb (x y : num) : bool := Qeq_bool x y.

(** ** Exceptions *)

Inductive exn : Type :=
| KeyError (key : string)
| IndexError
| ValueError.

Inductive result (A : Type) : Type :=
| Ok (a : A)
| Raise (e : exn).

Arguments Ok {A} a.
Arguments Raise {A} e.

Definition bind {A B} (r : result A) (k : A -> result B) : result B :=
  match r with
  | Ok a => k a
  | Raise e => Raise e
  end.

Notation "x <- c ;; k" := (bind c (fun x => k))
  (at level 61, c at next level, right associativity).

(** Left-to-right evaluation of a comprehension whose element expression
    may raise: the first exception aborts the whole comprehension. *)
Fixpoint mapM {A B} (f : A -> result B) (l : list A) : result (list B) :=
  match l with
  | [] => Ok []
  | x :: xs => y <- f x ;; ys <- mapM f xs ;; Ok (y :: ys)
  end.

(** A [for] loop that updates an accumulator and may raise. *)
Fixpoint foldM {A S} (f : S -> A -> result S) (l : list A) (s : S) : result S :=
  match l with
  | [] => Ok s
  | x :: xs => s' <- f s x ;; foldM f xs s'
  end.

(** ** Dictionaries and lists *)

Definition dict (V : Type) := list (string * V).

Definition keys {V} (d : dict V) : list string := map fst d.
Definition values {V} (d : dict V) : list V := map snd d.

(** [d[k]] *)
Fixpoint getitem {V} (d : dict V) (k : string) : result V :=
  match d with
  | [] => Raise (KeyError k)
  | (k', v) :: d' => if String.eqb k' k then Ok v else getitem d' k
  end.

(** [l[i]] for a non-negative index *)
Definition list_getitem {A} (l : list A) (i : nat) : result A :=
  match nth_error l i with
  | Some x => Ok x
  | None => Raise IndexError
  end.

Definition enumerate {A} (l : list A) : list (nat * A) :=
  combine (seq 0 (List.length l)) l.

Definition sum (l : list num) : num := fold_right Qcplus 0 l.

(** ** Strings: [asset.lower().replace(" ", "_")] *)

Definition lower_ascii (c : ascii) : ascii :=
  let n := nat_of_ascii c in
  if (65 <=? n)%nat && (n <=? 90)%nat then ascii_of_nat (n + 32) else c.

(** [str.lower] on ASCII labels. *)
Fixpoint lower (s : string) : string :=
  match s with
  | EmptyString => EmptyString
  | String c s' => String (lower_ascii c) (lower s')
  end.

(** [str.replace(old, new)] for one-character [old] and [new]. *)
Fixpoint replace (old new : ascii) (s : string) : string :=
  match s with
  | EmptyString => EmptyString
  | String c s' =>
      String (if Ascii.eqb c old then new else c) (replace old new s')
  end.

Definition weight_key (asset : string) : string :=
  replace " " "_" (lower asset).

(** ** Level 1: [compute_tactical_allocations] *)

Section Level1.

Variable strategic_allocations : dict (list num).
Variable multipliers : dict num.
Variable profiles : list string.
Variable active_weights : dict num.

(** The element expression of the inner comprehension,
    [strategic_allocations[asset][i] + multipliers[p] * active_weights[...]];
    operands are evaluated left to right. *)
Definition tactical_cell (asset : string) (ip : nat * string) : result num :=
  let '(i, p) := ip in
  row <- getitem strategic_allocations asset ;;
  s <- list_getitem row i ;;
  m <- getitem multipliers p ;;
  w <- getitem active_weights (weight_key asset) ;;
  Ok (s + m * w).

Definition tactical_row (asset : string) : result (list num) :=
  mapM (tactical_cell asset) (enumerate profiles).

Definition compute_tactical_allocations : result (dict (list num)) :=
  mapM (fun asset => row <- tactical_row asset ;; Ok (asset, row))
       (keys strategic_allocations).

End Level1.


(** ** Level 2: [compute_level_2_tactical_allocations] *)

Definition compute_level_2_tactical_allocations
  (base_allocations active_weights : dict num) : result (dict num) :=
  mapM (fun key =>
          b <- getitem base_allocations key ;;
          a <- getitem active_weights key ;;
          Ok (key, b + a))
       (keys base_allocations).

(** ** The user interface

    Streamlit calls leave an event in a log.  The values the user selects
    are read from a [User]: the slider oracle receives the label and the
    default value of the slider. *)

Inductive event : Type :=
| StSubheader (text : string)
| StSlider (label : string) (value : num)
| StError (text : string)
| StSuccess (text : string)
| StDataframe (index : list string).

Record User : Type := mkUser {
  toggle_show_active_weights : bool;
  number_input_equities : num;
  slider : string -> num -> num
}.

(** A computation that talks to the page: it extends the log and returns a
    value or raises. *)
Definition UI (A : Type) : Type := list event -> result A * list event.

Definition ui_ret {A} (a : A) : UI A := fun log => (Ok a, log).

Definition ui_bind {A B} (c : UI A) (k : A -> UI B) : UI B :=
  fun log =>
    match c log with
    | (Ok a, log') => k a log'
    | (Raise e, log') => (Raise e, log')
    end.

Definition ui_lift {A} (r : result A) : UI A := fun log => (r, log).

Definition emit (e : event) : UI unit := fun log => (Ok tt, (log ++ [e])%list).

Notation "x <~ c ;; k" := (ui_bind c (fun x => k))
  (at level 61, c at next level, right associativity).

Fixpoint ui_mapM {A B} (f : A -> UI B) (l : list A) : UI (list B) :=
  match l with
  | [] => ui_ret []
  | x :: xs => y <~ f x ;; ys <~ ui_mapM f xs ;; ui_ret (y :: ys)
  end.

Definition msg_invalid : string :=
  "The sum of active weights must equal 0. Please adjust the weights.".
Definition msg_valid : string := "The sum of active weights is valid.".

(** [input_active_weights]: one slider per column of the one-row frame built
    from [default_weights], then the zero-sum test on the row sum, then the
    row as a dict.  [min_value], [max_value] and [step] only parametrise the
    widget. *)
Definition input_active_weights (user : User) (default_weights : dict num)
  (title : string) : UI (dict num) :=
  _ <~ emit (StSubheader title) ;;
  active_weights_df <~
    ui_mapM (fun '(col, value) =>
               _ <~ emit (StSlider col value) ;;
               ui_ret (col, slider user col value))
            default_weights ;;
  _ <~ (if negb (num_eqb (sum (values active_weights_df)) 0)
        then emit (StError msg_invalid)
        else emit (StSuccess msg_valid)) ;;
  ui_ret active_weights_df.

(** ** Data frames

    A frame has ordered row labels, ordered column labels and a value per
    pair of labels; [None] is NaN.  Rows and columns are addressed by label
    ([.loc]), so the values are kept as a function of the two labels.
    Level-1 and total frames have (Profile, Type) columns, level-2 frames
    have the columns "Strategic" and "Tactical". *)

Definition cell : Type := option num.

Definition column : Type := (string * string)%type.

Definition column_eqb (c c' : column) : bool :=
  String.eqb (fst c) (fst c') && String.eqb (snd c) (snd c').

Record DataFrame (C : Type) : Type := mkDataFrame {
  index : list string;
  columns : list C;
  value_at : string -> C -> cell
}.

Arguments mkDataFrame {C} index columns value_at.
Arguments index {C} d.
Arguments columns {C} d.
Arguments value_at {C} d r c.

Definition mem (k : string) (l : list string) : bool :=
  existsb (String.eqb k) l.

Definition has_type (typ : string) (c : column) : bool :=
  String.eqb (snd c) typ.

(** Arithmetic on cells propagates NaN. *)
Definition cell_lift2 (f : num -> num -> num) (x y : cell) : cell :=
  match x, y with
  | Some a, Some b => Some (f a b)
  | _, _ => None
  end.

Definition cell_mul : cell -> cell -> cell := cell_lift2 Qcmult.
Definition cell_div : cell -> cell -> cell := cell_lift2 Qcdiv.
Definition cell_sub : cell -> cell -> cell := cell_lift2 Qcminus.
Definition cell_add : cell -> cell -> cell := cell_lift2 Qcplus.

Definition cell_sum (l : list cell) : cell := fold_right cell_add (Some 0) l.

(** [pd.DataFrame(index=idx, columns=cols)]: every value is NaN. *)
Definition empty_frame {C} (idx : list string) (cols : list C) : DataFrame C :=
  mkDataFrame idx cols (fun _ _ => None).

(** [df.loc[r]], a row as a series over the columns. *)
Definition loc_row {C} (df : DataFrame C) (r : string) : result (C -> cell) :=
  if mem r (index df) then Ok (value_at df r) else Raise (KeyError r).

(** [df.loc[r, c]] in a level-2 frame. *)
Definition loc_cell (df : DataFrame string) (r c : string) : result cell :=
  if mem r (index df) then
    if mem c (columns df) then Ok (value_at df r c) else Raise (KeyError c)
  else Raise (KeyError r).

(** [df.loc[r, pd.IndexSlice[:, typ]]], the part of a row under the columns
    whose Type level is [typ]. *)
Definition loc_typed (df : DataFrame column) (r typ : string)
  : result (column -> cell) :=
  if mem r (index df) then
    if existsb (has_type typ) (columns df) then Ok (value_at df r)
    else Raise (KeyError typ)
  else Raise (KeyError r).

(** [df.loc[r] = series]: the rows labelled [r] take the values of the
    series, column by column; a label that is not in the index is appended
    to it. *)
Definition set_row {C} (df : DataFrame C) (r : string) (series : C -> cell)
  : DataFrame C :=
  mkDataFrame
    (if mem r (index df) then index df else index df ++ [r])%list
    (columns df)
    (fun r' c => if String.eqb r' r then series c else value_at df r' c).

(** [df.loc[r, pd.IndexSlice[:, typ]] = series] *)
Definition set_typed (df : DataFrame column) (r typ : string)
  (series : column -> cell) : DataFrame column :=
  mkDataFrame
    (if mem r (index df) then index df else index df ++ [r])%list
    (columns df)
    (fun r' c =>
       if String.eqb r' r && has_type typ c then series c
       else value_at df r' c).

(** The rows of a frame in display order. *)
Definition to_rows {C} (df : DataFrame C) : list (string * list cell) :=
  map (fun r => (r, map (value_at df r) (columns df))) (index df).

(** ** Reconciliation: [compute_total_allocations] *)

Definition level2_types : list string := ["Strategic"; "Tactical"].

(** One of the two nested loops over the rows of a level-2 frame:
    [own * df_total.loc[parent, IndexSlice[:, typ]] / 100] is evaluated and
    then stored under the sub-class label. *)
Definition rebase_rows (level2_df : DataFrame string) (parent : string)
  (df_total_allocations : DataFrame column) : result (DataFrame column) :=
  foldM (fun df lvl2_asset_class =>
           foldM (fun df typ =>
                    own <- loc_cell level2_df lvl2_asset_class typ ;;
                    parent_row <- loc_typed df parent typ ;;
                    Ok (set_typed df lvl2_asset_class typ
                          (fun c => cell_div (cell_mul own (parent_row c))
                                             (Some hundred))))
                 level2_types df)
        (index level2_df) df_total_allocations.

Definition compute_total_allocations
  (level_1_df : DataFrame column) (equities_df fixed_income_df : DataFrame string)
  (strategic_allocations : dict (list num)) : result (DataFrame column) :=
  let idx := ("Equities" :: index equities_df ++
              "Fixed Income" :: index fixed_income_df ++ ["Cash"])%list in
  let cols := columns level_1_df in
  let df_total_allocations := empty_frame idx cols in
  df1 <- foldM (fun df lvl1_asset_class =>
                  row <- loc_row level_1_df lvl1_asset_class ;;
                  Ok (set_row df lvl1_asset_class row))
               (keys strategic_allocations) df_total_allocations ;;
  df2 <- rebase_rows equities_df "Equities" df1 ;;
  rebase_rows fixed_income_df "Fixed Income" df2.

(** ** Display helpers of [utils.py] *)

(** [df[c] = series]: a new column goes to the end. *)
Definition set_column (df : DataFrame column) (c : column)
  (series : string -> cell) : DataFrame column :=
  mkDataFrame
    (index df)
    (if existsb (column_eqb c) (columns df) then columns df
     else columns df ++ [c])%list
    (fun r c' => if column_eqb c' c then series r else value_at df r c').

(** [add_difference_column] with the default labels.  The frame it receives
    is the caller's object and the new columns are written into it; the
    result is that frame together with the reordered copy [df[new_columns]]
    that is returned. *)
Definition add_difference_column (df : DataFrame column) (profiles : list string)
  : result (DataFrame column * DataFrame column) :=
  if negb (existsb (has_type "Tactical") (columns df)) then
    Raise (KeyError "Tactical")
  else if negb (existsb (has_type "Strategic") (columns df)) then
    Raise (KeyError "Strategic")
  else
    let difference (profile r : string) : cell :=
      cell_sub (value_at df r (profile, "Tactical"))
               (value_at df r (profile, "Strategic")) in
    df' <- foldM (fun d profile =>
                    if existsb (fun c => String.eqb (fst c) profile &&
                                         (has_type "Tactical" c ||
                                          has_type "Strategic" c))
                               (columns df)
                    then Ok (set_column d (profile, "Difference")
                                        (difference profile))
                    else Raise (KeyError profile))
                 profiles df ;;
    let new_columns :=
      flat_map (fun profile => [(profile, "Strategic"); (profile, "Tactical");
                                (profile, "Difference")]) profiles in
    match find (fun c => negb (existsb (column_eqb c) (columns df')))
               new_columns with
    | Some c => Raise (KeyError (snd c))
    | None => Ok (df', mkDataFrame (index df') new_columns (value_at df'))
    end.

Definition level_1_labels : list string := ["Stocks"; "Bonds"; "Cash"].

(** [st.dataframe] of a styled frame; the level-1 highlight selects the rows
    [level_1_labels] by label. *)
Definition st_dataframe (df : DataFrame column) (highlight_level_1 : bool)
  : UI unit :=
  if highlight_level_1 then
    match find (fun l => negb (mem l (index df))) level_1_labels with
    | Some l => ui_lift (Raise (KeyError l))
    | None => emit (StDataframe (index df))
    end
  else emit (StDataframe (index df)).

(** [display_asset_allocations]; the value is the caller's frame after the
    call. *)
Definition display_asset_allocations (df : DataFrame column)
  (profiles : list string) (show_active_weights highlight_level_1 : bool)
  : UI (DataFrame column) :=
  if show_active_weights then
    dfs <~ ui_lift (add_difference_column df profiles) ;;
    _ <~ st_dataframe (snd dfs) highlight_level_1 ;;
    ui_ret (fst dfs)
  else
    _ <~ st_dataframe df highlight_level_1 ;;
    ui_ret df.

(** ** Building the level-1 and level-2 frames *)

Fixpoint zip3 {A B D} (l1 : list A) (l2 : list B) (l3 : list D)
  : list (A * B * D) :=
  match l1, l2, l3 with
  | a :: l1', b :: l2', d :: l3' => (a, b, d) :: zip3 l1' l2' l3'
  | _, _, _ => []
  end.

(** [data[c] = data.get(c, []) + [v]] *)
Fixpoint data_append (data : list (column * list num)) (c : column) (v : num)
  : list (column * list num) :=
  match data with
  | [] => [(c, v :: nil)]
  | (c', l) :: data' =>
      if column_eqb c' c then (c', (l ++ v :: nil)%list) :: data'
      else (c', l) :: data_append data' c v
  end.

Fixpoint position (k : string) (l : list string) : option nat :=
  match l with
  | [] => None
  | k' :: l' => if String.eqb k' k then Some 0%nat
                else option_map S (position k l')
  end.

Fixpoint data_get (data : list (column * list num)) (c : column)
  : option (list num) :=
  match data with
  | [] => None
  | (c', l) :: data' => if column_eqb c' c then Some l else data_get data' c
  end.

(** [pd.DataFrame(data, index=idx)] for a dict of lists: every list must
    have one value per row label. *)
Definition frame_of_lists (data : list (column * list num)) (idx : list string)
  : result (DataFrame column) :=
  if forallb (fun cl => Nat.eqb (List.length (snd cl)) (List.length idx)) data
  then Ok (mkDataFrame idx (map fst data)
             (fun r c =>
                match position r idx, data_get data c with
                | Some i, Some l => nth_error l i
                | _, _ => None
                end))
  else Raise ValueError.

Definition level_1_data (strategic_allocations tactical_allocations : dict (list num))
  (profiles : list string) : result (list (column * list num)) :=
  foldM (fun data asset =>
           srow <- getitem strategic_allocations asset ;;
           trow <- getitem tactical_allocations asset ;;
           Ok (fold_left
                 (fun data '(profile, strategic, tactical) =>
                    data_append
                      (data_append data (profile, "Strategic") strategic)
                      (profile, "Tactical") tactical)
                 (zip3 profiles srow trow) data))
        (keys strategic_allocations) [].

Definition display_level_1_allocations
  (strategic_allocations tactical_allocations : dict (list num))
  (profiles : list string) (show_active_weights : bool)
  : UI (DataFrame column) :=
  data <~ ui_lift (level_1_data strategic_allocations tactical_allocations
                                profiles) ;;
  level_1_allocation_df <~
    ui_lift (frame_of_lists data (keys strategic_allocations)) ;;
  display_asset_allocations level_1_allocation_df profiles
                            show_active_weights false.

(** [pd.DataFrame({'Strategic': d1, 'Tactical': d2}, index=idx)] for two
    dicts: a key that a dict lacks gives NaN. *)
Definition frame_of_dicts (strategic tactical : dict num) (idx : list string)
  : DataFrame string :=
  mkDataFrame idx level2_types
    (fun r c =>
       let d := if String.eqb c "Strategic" then strategic
                else if String.eqb c "Tactical" then tactical else [] in
       match getitem d r with
       | Ok v => Some v
       | Raise _ => None
       end).

Definition display_level_2_allocations
  (equities_size_style fixed_income_sector tactical_equities
   tactical_fixed_income : dict num)
  : UI (DataFrame string * DataFrame string) :=
  _ <~ emit (StSubheader "Equities size and style allocations") ;;
  let equities_df :=
    frame_of_dicts equities_size_style tactical_equities
                   (keys equities_size_style) in
  _ <~ emit (StDataframe (index equities_df)) ;;
  _ <~ emit (StSubheader "Fixed Income sector allocations") ;;
  let fixed_income_df :=
    frame_of_dicts fixed_income_sector tactical_fixed_income
                   (keys fixed_income_sector) in
  _ <~ emit (StDataframe (index fixed_income_df)) ;;
  ui_ret (equities_df, fixed_income_df).

(** ** The pipeline of [main] *)

Record Config : Type := mkConfig {
  multipliers : dict num;
  strategic_allocations : dict (list num);
  equities_size_style : dict num;
  fixed_income_sector : dict num;
  moderate_equities_active : num;
  default_equities_active_weight : dict num;
  default_fixed_income_active_weight : dict num
}.

(** The level-1 active weights that [main] builds from the one number the
    user enters. *)
Definition moderate_active_weight (equities : num) : dict num :=
  [("equities", equities);
   ("fixed_income", Qcopp 1 * equities);
   ("cash", 0)].

Record Tables : Type := mkTables {
  tactical_allocations : dict (list num);
  level_1_allocation_df : DataFrame column;
  equities_style_active : dict num;
  fixed_income_sector_active : dict num;
  tactical_equities_size_style : dict num;
  tactical_fixed_income_sector : dict num;
  equities_df : DataFrame string;
  fixed_income_df : DataFrame string;
  df_total_allocations : DataFrame column
}.

(** [main] from the inputs up to and including [compute_total_allocations],
    with everything it computes on the way. *)
Definition main_tables (user : User) (config : Config) : UI Tables :=
  let show_active_weights := toggle_show_active_weights user in
  let profiles := keys (multipliers config) in
  let active := moderate_active_weight (number_input_equities user) in
  tactical <~ ui_lift (compute_tactical_allocations
                         (strategic_allocations config) (multipliers config)
                         profiles active) ;;
  level_1 <~ display_level_1_allocations (strategic_allocations config)
               tactical profiles show_active_weights ;;
  _ <~ emit (StSubheader "Input Level 2 Active Weights") ;;
  eq_active <~ input_active_weights user
                 (default_equities_active_weight config) "Equities (%)" ;;
  fi_active <~ input_active_weights user
                 (default_fixed_income_active_weight config)
                 "Fixed Income (%)" ;;
  tactical_eq <~ ui_lift (compute_level_2_tactical_allocations
                            (equities_size_style config) eq_active) ;;
  tactical_fi <~ ui_lift (compute_level_2_tactical_allocations
                            (fixed_income_sector config) fi_active) ;;
  frames <~ display_level_2_allocations
              (equities_size_style config) (fixed_income_sector config)
              tactical_eq tactical_fi ;;
  total <~ ui_lift (compute_total_allocations level_1 (fst frames)
                      (snd frames) (strategic_allocations config)) ;;
  ui_ret (mkTables tactical level_1 eq_active fi_active tactical_eq
                   tactical_fi (fst frames) (snd frames) total).


(** What the user has entered on the sliders of one group, and the slider
    events of that group. *)
Definition entered (user : User) (default_weights : dict num) : dict num :=
  map (fun '(col, value) => (col, slider user col value)) default_weights.

Definition slider_events (default_weights : dict num) : list event :=
  map (fun '(col, value) => StSlider col value) default_weights.


(** ** The script [src/app.py]

    The script the functions above were factored out of works on the classes
    Stocks, Bonds and Cash.  Its validator and its reconciliation loops are
    the statements of [input_active_weights] and [compute_total_allocations]
    with these labels; its level-1 tactical table is written out class by
    class. *)

Module Legacy.

(** [[strategic_allocations[asset][i] (+|-) multipliers[p] * w
      for i, p in enumerate(profiles)]] *)
Definition shifted_row (strategic_allocations : dict (list num))
  (multipliers : dict num) (profiles : list string) (asset : string)
  (shift : num -> num -> num) : result (list num) :=
  mapM (fun '(i, p) =>
          row <- getitem strategic_allocations asset ;;
          s <- list_getitem row i ;;
          m <- getitem multipliers p ;;
          Ok (shift s m))
       (enumerate profiles).

Definition tactical_allocations (strategic_allocations : dict (list num))
  (multipliers : dict num) (profiles : list string)
  (moderate_stock_active : num) : result (dict (list num)) :=
  stocks <- shifted_row strategic_allocations multipliers profiles "Stocks"
              (fun s m => s + m * moderate_stock_active) ;;
  bonds <- shifted_row strategic_allocations multipliers profiles "Bonds"
             (fun s m => s - m * moderate_stock_active) ;;
  cash <- getitem strategic_allocations "Cash" ;;
  Ok [("Stocks", stocks); ("Bonds", bonds); ("Cash", cash)].

(** The level-1 active weights that the script applies. *)
Definition active_weight (moderate_stock_active : num) : dict num :=
  [("stocks", moderate_stock_active);
   ("bonds", Qcopp 1 * moderate_stock_active);
   ("cash", 0)].

End Legacy.

(** ** A worked configuration

    Three profiles, the three level-1 classes, three equity styles and two
    fixed-income sectors. *)

Definition example_multipliers : dict num :=
  [("Aggressive", dec 15 10); ("Moderate", num_of_Z 1);
   ("Conservative", dec 5 10)].

Definition example_profiles : list string := keys example_multipliers.

Definition example_strategic : dict (list num) :=
  [("Equities", [num_of_Z 70; num_of_Z 60; num_of_Z 50]);
   ("Fixed Income", [num_of_Z 25; num_of_Z 35; num_of_Z 45]);
   ("Cash", [num_of_Z 5; num_of_Z 5; num_of_Z 5])].

Definition example_equities : dict num :=
  [("Large Cap Growth", num_of_Z 29); ("Large Cap Value", num_of_Z 31);
   ("Small Growth", num_of_Z 40)].

Definition example_fixed_income : dict num :=
  [("Treasuries", num_of_Z 50); ("Corporate", num_of_Z 50)].

Definition example_config : Config :=
  mkConfig example_multipliers example_strategic example_equities
    example_fixed_income (num_of_Z 2)
    [("Large Cap Growth", num_of_Z 1); ("Large Cap Value", num_of_Z (-1));
     ("Small Growth", num_of_Z 0)]
    [("Treasuries", num_of_Z 3); ("Corporate", num_of_Z (-2))].

(** The user enters 2 for the equities active weight and leaves the sliders
    alone: the equity weights sum to 0, the fixed-income weights to 1. *)
Definition example_user : User :=
  mkUser false (num_of_Z 2) (fun _ value => value).

Definition get_ok {A} (default : A) (r : result A) : A :=
  match r with
  | Ok a => a
  | Raise _ => default
  end.

(** The tables of the worked configuration, step by step. *)
Definition example_tactical : dict (list num) :=
  get_ok [] (compute_tactical_allocations example_strategic
               example_multipliers example_profiles
               (moderate_active_weight (num_of_Z 2))).

Definition example_level_1_df : DataFrame column :=
  get_ok (empty_frame [] [])
    (data <- level_1_data example_strategic example_tactical
                          example_profiles ;;
     frame_of_lists data (keys example_strategic)).

Definition example_equities_df : DataFrame string :=
  frame_of_dicts example_equities
    (get_ok [] (compute_level_2_tactical_allocations example_equities
                  (default_equities_active_weight example_config)))
    (keys example_equities).

Definition example_fixed_income_df : DataFrame string :=
  frame_of_dicts example_fixed_income
    (get_ok [] (compute_level_2_tactical_allocations example_fixed_income
                  (default_fixed_income_active_weight example_config)))
    (keys example_fixed_income).

(** ** The rest of [main] and of [utils.py] *)

(** [main]: the tables, then the total table is shown with its level-1
    rows highlighted. *)
Definition main (user : User) (config : Config) : UI unit :=
  tables <~ main_tables user config ;;
  _ <~ emit (StSubheader "Total allocations") ;;
  _ <~ display_asset_allocations (df_total_allocations tables)
         (keys (multipliers config)) (toggle_show_active_weights user) true ;;
  ui_ret tt.

(** The style that [display_allocation_with_highlights] gives to a value of
    a Difference column: a green background for a positive value, a red one
    for a negative value, with opacity [min(1, abs(val) / 10)], and no style
    otherwise (zero, NaN). *)
Inductive style : Type :=
| Plain
| Green (opacity : num)
| Red (opacity : num).

Definition num_ltb (x y : num) : bool := negb (Qle_bool y x).

(** [min(x, y)] *)
Definition num_min (x y : num) : num := if num_ltb y x then y else x.

Definition difference_style (val : cell) : style :=
  match val with
  | None => Plain
  | Some v =>
      if num_ltb 0 v then Green (num_min 1 (Qcabs v / num_of_Z 10))
      else if num_ltb v 0 then Red (num_min 1 (Qcabs v / num_of_Z 10))
      else Plain
  end.

(** The columns of the level-1 frame, the row of a class in a table, and
    the body of the inner loop of [display_level_1_allocations]. *)
Definition level_1_columns (profiles : list string) : list column :=
  flat_map (fun p => [(p, "Strategic"); (p, "Tactical")]) profiles.

Definition row_of (table : dict (list num)) (asset : string) : list num :=
  get_ok [] (getitem table asset).

Definition level_1_step (data : list (column * list num))
  (entry : string * num * num) : list (column * list num) :=
  let '(profile, strategic, tactical) := entry in
  data_append (data_append data (profile, "Strategic") strategic)
              (profile, "Tactical") tactical.

(** What the outer loop of [display_level_1_allocations] has built once the
    classes [done] are processed: the columns of every profile, each holding
    one value per processed class. *)
Definition level_1_data_ok (strategic tactical : dict (list num))
  (profiles : list string) (done : list string)
  (data : list (column * list num)) : Prop :=
  (done = [] -> data = []) /\
  (done <> [] -> map fst data = level_1_columns profiles) /\
  forall i p, nth_error profiles i = Some p ->
    match data_get data (p, "Strategic") with Some l => l | None => [] end
    = map (fun a => nth i (row_of strategic a) 0) done /\
    match data_get data (p, "Tactical") with Some l => l | None => [] end
    = map (fun a => nth i (row_of tactical a) 0) done.

(** A configuration of the script [src/app.py]. *)
Definition legacy_strategic : dict (list num) :=
  [("Stocks", [num_of_Z 70; num_of_Z 60; num_of_Z 50]);
   ("Bonds", [num_of_Z 25; num_of_Z 35; num_of_Z 45]);
   ("Cash", [num_of_Z 5; num_of_Z 5; num_of_Z 5])].

(** * Properties *)

(** ** The [result] monad, dictionaries, lists *)

Lemma bind_ok {A B} (r : result A) (k : A -> result B) (b : B) :
  (x <- r ;; k x) = Ok b -> exists a, r = Ok a /\ k a = Ok b.
Proof. destruct r as [a|e]; simpl; intros H; [eauto | discriminate]. Qed.

Lemma mapM_ok {A B} (f : A -> result B) (l : list A) (ys : list B) :
  mapM f l = Ok ys <-> Forall2 (fun x y => f x = Ok y) l ys.
Proof.
  revert ys; induction l as [|x xs IH]; intros ys; simpl.
  - split; intros H.
    + injection H as <-. constructor.
    + inversion H. reflexivity.
  - split; intros H.
    + apply bind_ok in H as (y & Hy & H).
      apply bind_ok in H as (ys' & Hys & H).
      injection H as <-. constructor; [exact Hy | now apply IH].
    + inversion H as [|? y ? ys' Hy Hys]; subst.
      rewrite Hy; simpl. apply IH in Hys. rewrite Hys. reflexivity.
Qed.

Lemma mapM_total {A B} (f : A -> result B) (l : list A) :
  (forall x, In x l -> exists y, f x = Ok y) -> exists ys, mapM f l = Ok ys.
Proof.
  induction l as [|x xs IH]; intros H; simpl.
  - eauto.
  - destruct (H x (or_introl eq_refl)) as (y & Hy).
    destruct IH as (ys & Hys); [intros; apply H; now right|].
    rewrite Hy, Hys. simpl. eauto.
Qed.

Lemma Forall2_nth_error_left {A B} (R : A -> B -> Prop) l ys i x :
  Forall2 R l ys -> nth_error l i = Some x ->
  exists y, nth_error ys i = Some y /\ R x y.
Proof.
  intros H; revert i; induction H as [|a b l' ys' Hab _ IH]; intros i Hi.
  - destruct i; discriminate.
  - destruct i as [|i]; simpl in *.
    + injection Hi as <-. eauto.
    + now apply IH.
Qed.

Lemma getitem_in {V} (d : dict V) (k : string) :
  In k (keys d) <-> exists v, getitem d k = Ok v.
Proof.
  induction d as [|[k' v'] d IH]; simpl.
  - split; [tauto | intros (v & H); discriminate].
  - destruct (String.eqb_spec k' k) as [->|Hne].
    + split; eauto.
    + rewrite <- IH. split; [intros [H|H]; [contradiction | exact H] | auto].
Qed.

Lemma getitem_In_pair {V} (d : dict V) (k : string) (v : V) :
  getitem d k = Ok v -> In (k, v) d.
Proof.
  induction d as [|[k' v'] d IH]; simpl; [discriminate|].
  destruct (String.eqb_spec k' k) as [->|Hne]; intros H.
  - injection H as <-. now left.
  - right. now apply IH.
Qed.

Lemma getitem_raises {V} (d : dict V) (k : string) :
  ~ In k (keys d) -> getitem d k = Raise (KeyError k).
Proof.
  induction d as [|[k' v'] d IH]; simpl; intros H; [reflexivity|].
  destruct (String.eqb_spec k' k) as [->|Hne]; [tauto|].
  apply IH. tauto.
Qed.

Lemma nth_error_enumerate_from {A} (l : list A) (start i : nat) :
  nth_error (combine (seq start (List.length l)) l) i =
  option_map (fun p => ((start + i)%nat, p)) (nth_error l i).
Proof.
  revert start i; induction l as [|x xs IH]; intros start i; simpl.
  - destruct i; reflexivity.
  - destruct i as [|i]; simpl.
    + now rewrite Nat.add_0_r.
    + rewrite IH. now rewrite Nat.add_succ_r.
Qed.

Lemma nth_error_enumerate {A} (l : list A) (i : nat) :
  nth_error (enumerate l) i = option_map (fun p => (i, p)) (nth_error l i).
Proof. unfold enumerate. now rewrite nth_error_enumerate_from. Qed.

Lemma length_enumerate {A} (l : list A) : List.length (enumerate l) = List.length l.
Proof.
  unfold enumerate. rewrite length_combine, length_seq. apply Nat.min_id.
Qed.

Lemma In_enumerate {A} (l : list A) (i : nat) (p : A) :
  In (i, p) (enumerate l) -> nth_error l i = Some p.
Proof.
  intros H. apply In_nth_error in H as (n & Hn).
  rewrite nth_error_enumerate in Hn.
  destruct (nth_error l n) eqn:E; simpl in Hn; [|discriminate].
  injection Hn as -> ->. exact E.
Qed.

(** A dict comprehension [{k: g(k) for k in ks}]. *)
Lemma comprehension_shape {V} (f : string -> result (string * V))
  (g : string -> result V) (ks : list string) (t : dict V) :
  (forall k, f k = (v <- g k ;; Ok (k, v))) ->
  mapM f ks = Ok t ->
  Forall2 (fun k kv => fst kv = k /\ g k = Ok (snd kv)) ks t.
Proof.
  intros Hf H. apply mapM_ok in H.
  induction H as [|k kv ks' t' Hk _ IH]; constructor; [|exact IH].
  rewrite Hf in Hk. apply bind_ok in Hk as (v & Hv & Hk).
  injection Hk as <-. simpl. auto.
Qed.

Lemma comprehension_keys {V} (g : string -> result V) ks (t : dict V) :
  Forall2 (fun k kv => fst kv = k /\ g k = Ok (snd kv)) ks t -> keys t = ks.
Proof.
  induction 1 as [|k kv ks' t' [Hk _] _ IH]; simpl; [reflexivity|].
  now rewrite Hk, IH.
Qed.

Lemma comprehension_getitem {V} (g : string -> result V) ks (t : dict V) k :
  Forall2 (fun k kv => fst kv = k /\ g k = Ok (snd kv)) ks t ->
  In k ks -> exists v, getitem t k = Ok v /\ g k = Ok v.
Proof.
  induction 1 as [|k0 [k1 v1] ks' t' [Hk Hg] _ IH]; simpl; intros Hin.
  - contradiction.
  - simpl in Hk, Hg. subst k1.
    destruct (String.eqb_spec k0 k) as [->|Hne]; [eauto|].
    destruct Hin as [Heq|Hin]; [contradiction | auto].
Qed.

Lemma comprehension_total {V} (f : string -> result (string * V))
  (g : string -> result V) (ks : list string) :
  (forall k, f k = (v <- g k ;; Ok (k, v))) ->
  (forall k, In k ks -> exists v, g k = Ok v) ->
  exists t, mapM f ks = Ok t.
Proof.
  intros Hf Hg. apply mapM_total. intros k Hk.
  destruct (Hg k Hk) as (v & Hv). rewrite Hf, Hv. simpl. eauto.
Qed.

(** ** Level 1 *)

Lemma tactical_cell_ok strategic multipliers active_weights asset i p y :
  tactical_cell strategic multipliers active_weights asset (i, p) = Ok y ->
  exists row s m w,
    getitem strategic asset = Ok row /\ nth_error row i = Some s /\
    getitem multipliers p = Ok m /\
    getitem active_weights (weight_key asset) = Ok w /\
    y = s + m * w.
Proof.
  unfold tactical_cell. intros H.
  apply bind_ok in H as (row & Hrow & H).
  apply bind_ok in H as (s & Hs & H).
  apply bind_ok in H as (m & Hm & H).
  apply bind_ok in H as (w & Hw & H).
  injection H as <-.
  unfold list_getitem in Hs. destruct (nth_error row i) eqn:E; [|discriminate].
  injection Hs as ->. exists row, s, m, w. auto.
Qed.

Lemma tactical_row_ok strategic multipliers profiles active_weights asset trow :
  tactical_row strategic multipliers profiles active_weights asset = Ok trow ->
  List.length trow = List.length profiles /\
  forall i p, nth_error profiles i = Some p ->
    exists row s m w,
      getitem strategic asset = Ok row /\ nth_error row i = Some s /\
      getitem multipliers p = Ok m /\
      getitem active_weights (weight_key asset) = Ok w /\
      nth_error trow i = Some (s + m * w).
Proof.
  unfold tactical_row. intros H. apply mapM_ok in H. split.
  - apply Forall2_length in H. now rewrite length_enumerate in H.
  - intros i p Hp.
    assert (Hi : nth_error (enumerate profiles) i = Some (i, p))
      by (rewrite nth_error_enumerate, Hp; reflexivity).
    destruct (Forall2_nth_error_left _ _ _ _ _ H Hi) as (y & Hy & Hcell).
    apply tactical_cell_ok in Hcell as (row & s & m & w & ? & ? & ? & ? & ->).
    exists row, s, m, w. auto.
Qed.

Lemma tactical_row_total strategic multipliers profiles active_weights asset :
  (forall i p, nth_error profiles i = Some p ->
     In p (keys multipliers) /\
     In (weight_key asset) (keys active_weights) /\
     exists row, getitem strategic asset = Ok row /\
                 (i < List.length row)%nat) ->
  exists trow,
    tactical_row strategic multipliers profiles active_weights asset = Ok trow.
Proof.
  intros H. apply mapM_total. intros [i p] Hin.
  apply In_enumerate in Hin.
  destruct (H i p Hin) as (Hp & Hw & row & Hrow & Hi).
  apply nth_error_Some in Hi.
  destruct (nth_error row i) as [s|] eqn:Es; [|congruence].
  apply getitem_in in Hp as (m & Em). apply getitem_in in Hw as (w & Ew).
  unfold tactical_cell, list_getitem. rewrite Hrow; simpl.
  rewrite Es; simpl. rewrite Em; simpl. rewrite Ew; simpl. eauto.
Qed.

Lemma compute_tactical_allocations_shape strategic multipliers profiles aw t :
  compute_tactical_allocations strategic multipliers profiles aw = Ok t ->
  Forall2 (fun k kv => fst kv = k /\
             tactical_row strategic multipliers profiles aw k = Ok (snd kv))
          (keys strategic) t.
Proof.
  unfold compute_tactical_allocations. intros H.
  eapply comprehension_shape; [|exact H]. reflexivity.
Qed.

(** Inputs on which every lookup of [compute_tactical_allocations] is
    defined. *)
Lemma compute_tactical_allocations_total strategic multipliers profiles aw :
  incl profiles (keys multipliers) ->
  (forall a, In a (keys strategic) -> In (weight_key a) (keys aw)) ->
  (forall a row, getitem strategic a = Ok row ->
     (List.length profiles <= List.length row)%nat) ->
  exists t,
    compute_tactical_allocations strategic multipliers profiles aw = Ok t.
Proof.
  intros Hm Hw Hlen. unfold compute_tactical_allocations.
  eapply comprehension_total with
    (g := tactical_row strategic multipliers profiles aw); [reflexivity|].
  intros a Ha. pose proof Ha as Hk.
  apply getitem_in in Hk as (row & Hrow).
  apply tactical_row_total. intros i p Hp. repeat split.
  - apply Hm. eapply nth_error_In; eauto.
  - auto.
  - exists row. split; [exact Hrow|].
    apply Nat.lt_le_trans with (List.length profiles); [|eauto].
    apply nth_error_Some. congruence.
Qed.

Lemma compute_tactical_allocations_cells strategic multipliers profiles aw t :
  compute_tactical_allocations strategic multipliers profiles aw = Ok t ->
  forall a trow i p,
    getitem t a = Ok trow -> nth_error profiles i = Some p ->
    exists srow s m w,
      getitem strategic a = Ok srow /\ nth_error srow i = Some s /\
      getitem multipliers p = Ok m /\ getitem aw (weight_key a) = Ok w /\
      nth_error trow i = Some (s + m * w).
Proof.
  intros H a trow i p Ht Hp.
  apply compute_tactical_allocations_shape in H.
  assert (Ha : In a (keys strategic)).
  { rewrite <- (comprehension_keys _ _ _ H). apply getitem_in. eauto. }
  destruct (comprehension_getitem _ _ _ a H Ha) as (trow' & Ht' & Hrow).
  rewrite Ht in Ht'. injection Ht' as <-.
  apply tactical_row_ok in Hrow as [_ Hrow]. exact (Hrow i p Hp).
Qed.

Lemma map_const_length {A B D} (n : D) (l : list A) (l' : list B) :
  List.length l = List.length l' ->
  map (fun _ => n) l = map (fun _ => n) l'.
Proof.
  revert l'; induction l as [|x l IH]; intros [|y l'] H; simpl in *;
    try discriminate; [reflexivity|]. f_equal. apply IH. lia.
Qed.

(** C1.  On a strategic table with one entry per profile,
    [compute_tactical_allocations] returns a table with the keys of the
    strategic table, a row of the same length under each key, and
    [tactical[a][i] = strategic[a][i] + multipliers[p] * active_weights[a]]
    for the profile [p] at position [i], the active weight of [a] being
    stored under [weight_key a]. *)
Theorem compute_tactical_allocations_correct strategic multipliers profiles aw :
  incl profiles (keys multipliers) ->
  (forall a, In a (keys strategic) -> In (weight_key a) (keys aw)) ->
  (forall a row, In (a, row) strategic ->
     List.length row = List.length profiles) ->
  exists tactical,
    compute_tactical_allocations strategic multipliers profiles aw
      = Ok tactical /\
    keys tactical = keys strategic /\
    map (fun kv => List.length (snd kv)) tactical
      = map (fun kv => List.length (snd kv)) strategic /\
    forall a srow, getitem strategic a = Ok srow ->
      exists trow,
        getitem tactical a = Ok trow /\
        List.length trow = List.length srow /\
        forall i p, nth_error profiles i = Some p ->
          exists s m w,
            nth_error srow i = Some s /\ getitem multipliers p = Ok m /\
            getitem aw (weight_key a) = Ok w /\
            nth_error trow i = Some (s + m * w).
Proof.
  intros Hm Hw Hlen.
  destruct (compute_tactical_allocations_total strategic multipliers profiles aw)
    as (t & Ht); auto.
  { intros a row Hrow. apply getitem_In_pair in Hrow.
    rewrite (Hlen _ _ Hrow). apply Nat.le_refl. }
  exists t. split; [exact Ht|].
  pose proof (compute_tactical_allocations_shape _ _ _ _ _ Ht) as Hshape.
  pose proof (comprehension_keys _ _ _ Hshape) as Hkeys.
  split; [exact Hkeys|]. split.
  - transitivity (map (fun _ : string * list num => List.length profiles) t).
    + apply map_ext_in. intros [k row] Hin.
      apply Forall2_flip in Hshape.
      apply In_nth_error in Hin as (n & Hn).
      destruct (Forall2_nth_error_left _ _ _ _ _ Hshape Hn) as (k' & _ & _ & Hrow).
      simpl in *. now apply tactical_row_ok in Hrow as [Hl _].
    + transitivity (map (fun _ : string * list num => List.length profiles)
                        strategic).
      * apply map_const_length.
        apply (f_equal (@List.length string)) in Hkeys.
        unfold keys in Hkeys. now rewrite !length_map in Hkeys.
      * symmetry. apply map_ext_in. intros [k row] Hin. simpl. eauto.
  - intros a srow Hs.
    assert (Ha : In a (keys strategic)) by (apply getitem_in; eauto).
    destruct (comprehension_getitem _ _ _ a Hshape Ha) as (trow & Htrow & Hrow).
    exists trow. split; [exact Htrow|].
    apply tactical_row_ok in Hrow as [Hl Hcells]. split.
    + rewrite Hl. symmetry. eapply Hlen. eapply getitem_In_pair; eauto.
    + intros i p Hp.
      destruct (Hcells i p Hp) as (row & s & m & w & Hr & ? & ? & ? & ?).
      rewrite Hs in Hr. injection Hr as <-. exists s, m, w. auto.
Qed.

Ltac in_list :=
  repeat match goal with
         | H : In _ _ |- _ => simpl in H
         | H : _ \/ _ |- _ => destruct H
         | H : False |- _ => destruct H
         | H : (_, _) = (_, _) |- _ => injection H as <- <-
         | H : _ = _ |- _ => subst
         end;
  simpl; try tauto; try reflexivity.

Lemma compute_tactical_allocations_correct_witness :
  incl example_profiles (keys example_multipliers) /\
  exists tactical,
    compute_tactical_allocations example_strategic example_multipliers
      example_profiles (moderate_active_weight (num_of_Z 2)) = Ok tactical /\
    keys tactical = ["Equities"; "Fixed Income"; "Cash"] /\
    map (fun kv => List.length (snd kv)) tactical = [3; 3; 3]%nat.
Proof.
  split; [apply incl_refl|].
  destruct (compute_tactical_allocations_correct example_strategic
              example_multipliers example_profiles
              (moderate_active_weight (num_of_Z 2)))
    as (t & Ht & Hk & Hl & _).
  - apply incl_refl.
  - intros a Ha. in_list.
  - intros a row Ha. in_list.
  - exists t. auto.
Defined.

(** C8 (counterexample).  A profile that is no key of [multipliers] makes
    the lookup [multipliers[p]] raise [KeyError]. *)
Lemma compute_tactical_allocations_raises :
  compute_tactical_allocations
    (("Cash", num_of_Z 5 :: nil) :: nil) [] ("Moderate" :: nil)
    (("cash", 0) :: nil)
  = Raise (KeyError "Moderate").
Proof. reflexivity. Qed.

(** C8 (amended).  [compute_tactical_allocations] has no error of its own:
    it returns a table exactly when every lookup it performs is defined,
    that is, for every asset class and every profile [p] at position [i],
    [p] is a key of [multipliers], the weight key of the class is a key of
    [active_weights] and the strategic row has an entry at [i].  It never
    compares the order of [profiles] with the strategic rows: position [i]
    of every output row is computed with the multiplier of whatever profile
    stands at position [i]. *)
Theorem compute_tactical_allocations_completes strategic multipliers profiles aw :
  ((exists tactical,
      compute_tactical_allocations strategic multipliers profiles aw
        = Ok tactical) <->
   (forall a i p, In a (keys strategic) -> nth_error profiles i = Some p ->
      In p (keys multipliers) /\ In (weight_key a) (keys aw) /\
      exists row, getitem strategic a = Ok row /\
                  (i < List.length row)%nat)) /\
  (forall tactical,
     compute_tactical_allocations strategic multipliers profiles aw
       = Ok tactical ->
     forall a trow i p,
       getitem tactical a = Ok trow -> nth_error profiles i = Some p ->
       exists srow s m w,
         getitem strategic a = Ok srow /\ nth_error srow i = Some s /\
         getitem multipliers p = Ok m /\ getitem aw (weight_key a) = Ok w /\
         nth_error trow i = Some (s + m * w)).
Proof.
  split; [split|].
  - intros (t & Ht) a i p Ha Hp.
    apply compute_tactical_allocations_shape in Ht.
    destruct (comprehension_getitem _ _ _ a Ht Ha) as (trow & _ & Hrow).
    apply tactical_row_ok in Hrow as [_ Hrow].
    destruct (Hrow i p Hp) as (row & s & m & w & Hr & Hs & Hm & Hw & _).
    repeat split.
    + apply getitem_in. eauto.
    + apply getitem_in. eauto.
    + exists row. split; [exact Hr|]. apply nth_error_Some. congruence.
  - intros H. unfold compute_tactical_allocations.
    eapply comprehension_total with
      (g := tactical_row strategic multipliers profiles aw); [reflexivity|].
    intros a Ha. apply tactical_row_total. intros i p Hp. now apply H.
  - intros t Ht. now apply compute_tactical_allocations_cells.
Qed.

(** The profiles listed in the reverse order of the strategic columns: no
    error, and the Aggressive column is shifted by the Conservative
    multiplier. *)
Lemma compute_tactical_allocations_completes_witness :
  exists tactical trow,
    compute_tactical_allocations example_strategic example_multipliers
      (rev example_profiles) (moderate_active_weight (num_of_Z 2))
      = Ok tactical /\
    getitem tactical "Equities" = Ok trow /\
    nth_error trow 0 = Some (num_of_Z 70 + dec 5 10 * num_of_Z 2).
Proof.
  destruct (compute_tactical_allocations_completes example_strategic
              example_multipliers (rev example_profiles)
              (moderate_active_weight (num_of_Z 2))) as [[_ Htotal] Hcells].
  destruct Htotal as (t & Ht).
  { intros a i p Ha Hp.
    assert (Hi : (i < 3)%nat)
      by (apply (nth_error_Some (rev example_profiles)); congruence).
    apply nth_error_In in Hp. repeat split.
    - in_list.
    - in_list.
    - in_list; eexists; (split; [reflexivity | exact Hi]). }
  assert (Hk : In "Equities" (keys t)).
  { apply compute_tactical_allocations_shape in Ht.
    rewrite (comprehension_keys _ _ _ Ht). simpl. auto. }
  apply getitem_in in Hk as (trow & Htrow).
  exists t, trow. split; [exact Ht|]. split; [exact Htrow|].
  destruct (Hcells t Ht "Equities" trow 0%nat "Conservative" Htrow eq_refl)
    as (srow & s & m & w & Hs & Hs0 & Hm & Hw & Hcell).
  injection Hs as <-. injection Hs0 as <-. injection Hm as <-.
  injection Hw as <-. exact Hcell.
Defined.



(** ** Level 2 *)

Lemma In_getitem {V} (d : dict V) (k : string) (v : V) :
  NoDup (keys d) -> In (k, v) d -> getitem d k = Ok v.
Proof.
  induction d as [|[k' v'] d IH]; simpl; intros Hnd Hin; [contradiction|].
  inversion Hnd as [|? ? Hnotin Hnd']; subst.
  destruct Hin as [Heq|Hin].
  - injection Heq as -> ->. now rewrite String.eqb_refl.
  - destruct (String.eqb_spec k' k) as [->|Hne]; [|auto].
    exfalso. apply Hnotin. apply (in_map fst) in Hin. exact Hin.
Qed.

Lemma sum_app (l l' : list num) : sum (l ++ l') = sum l + sum l'.
Proof. induction l as [|x l IH]; simpl; [ring | rewrite IH; ring]. Qed.



Lemma compute_level_2_shape base aw t :
  compute_level_2_tactical_allocations base aw = Ok t ->
  Forall2 (fun k kv => fst kv = k /\
             (b <- getitem base k ;; a <- getitem aw k ;; Ok (b + a))
             = Ok (snd kv))
          (keys base) t.
Proof.
  unfold compute_level_2_tactical_allocations. intros H.
  eapply comprehension_shape; [|exact H].
  intros k. cbv beta. destruct (getitem base k); simpl; [|reflexivity].
  destruct (getitem aw k); reflexivity.
Qed.




(** C7.  An active-weight mapping with a key that the baseline does not have
    is accepted: the extra key is ignored and no error is raised. *)
Theorem compute_level_2_extra_key_accepted :
  compute_level_2_tactical_allocations
    (("A", num_of_Z 50) :: nil) [("A", num_of_Z 1); ("B", num_of_Z (-1))]
  = Ok (("A", num_of_Z 50 + num_of_Z 1) :: nil).
Proof. reflexivity. Qed.

(** The other direction: the first key of the baseline that the active
    weights lack raises [KeyError]. *)
Lemma compute_level_2_missing_key_raises (base aw : dict num) :
  ~ incl (keys base) (keys aw) ->
  exists k, In k (keys base) /\ ~ In k (keys aw) /\
            compute_level_2_tactical_allocations base aw = Raise (KeyError k).
Proof.
  unfold compute_level_2_tactical_allocations.
  assert (Hgen : forall ks, incl ks (keys base) -> ~ incl ks (keys aw) ->
            exists k, In k ks /\ ~ In k (keys aw) /\
              mapM (fun key => b <- getitem base key ;;
                               a <- getitem aw key ;; Ok (key, b + a)) ks
              = Raise (KeyError k)).
  { induction ks as [|k ks IH]; intros Hb Hn.
    - exfalso. apply Hn. intros k []. 
    - assert (Hk : In k (keys base)) by (apply Hb; now left).
      apply getitem_in in Hk as (b & Eb).
      destruct (in_dec string_dec k (keys aw)) as [Hin|Hout].
      + destruct IH as (k' & Hk' & Hout' & Hr).
        * intros x Hx. apply Hb. now right.
        * intros Hall. apply Hn. intros x [<-|Hx]; auto.
        * exists k'. split; [now right|]. split; [exact Hout'|].
          apply getitem_in in Hin as (a & Ea).
          simpl. rewrite Eb, Ea. simpl. now rewrite Hr.
      + exists k. split; [now left|]. split; [exact Hout|].
        simpl. rewrite Eb. simpl. now rewrite (getitem_raises aw k Hout). }
  apply Hgen. apply incl_refl.
Qed.

(** ** The weight validator inside [input_active_weights] *)


Lemma ui_bind_ok {A B} (c : UI A) (k : A -> UI B) log b log' :
  (x <~ c ;; k x) log = (Ok b, log') ->
  exists a log1, c log = (Ok a, log1) /\ k a log1 = (Ok b, log').
Proof.
  unfold ui_bind. destruct (c log) as [[a|e] log1]; intros H.
  - eauto.
  - discriminate.
Qed.

Lemma sliders_run (user : User) (d : dict num) (log : list event) :
  ui_mapM (fun '(col, value) =>
             _ <~ emit (StSlider col value) ;;
             ui_ret (col, slider user col value)) d log
  = (Ok (entered user d), (log ++ slider_events d)%list).
Proof.
  revert log; induction d as [|[col value] d IH]; intros log; simpl.
  - unfold ui_ret. now rewrite app_nil_r.
  - unfold ui_bind at 1. simpl. unfold ui_bind at 1. rewrite IH. simpl.
    unfold ui_ret. now rewrite <- app_assoc.
Qed.

Lemma input_active_weights_run (user : User) (d : dict num) title log :
  input_active_weights user d title log =
  (Ok (entered user d),
   (log ++ StSubheader title :: slider_events d ++
      (if num_eqb (sum (values (entered user d))) 0
       then StSuccess msg_valid else StError msg_invalid) :: nil)%list).
Proof.
  unfold input_active_weights. unfold ui_bind at 1. simpl.
  unfold ui_bind at 1. rewrite sliders_run.
  unfold ui_bind at 1.
  destruct (num_eqb (sum (values (entered user d))) 0); simpl;
    unfold ui_ret; rewrite <- !app_assoc; reflexivity.
Qed.


(** C9.  [input_active_weights] returns the entered weights whatever the
    zero-sum test says, the level-2 computation that follows receives
    exactly these weights, and in [main] both level-2 tactical tables are
    [compute_level_2_tactical_allocations] of the baseline and the entered
    weights. *)
Theorem validation_is_advisory :
  (forall (user : User) (default_weights base : dict num) title log,
     fst (input_active_weights user default_weights title log)
     = Ok (entered user default_weights) /\
     fst ((ws <~ input_active_weights user default_weights title ;;
           ui_lift (compute_level_2_tactical_allocations base ws)) log)
     = compute_level_2_tactical_allocations base
         (entered user default_weights)) /\
  (forall user config log tables log',
     main_tables user config log = (Ok tables, log') ->
     equities_style_active tables
     = entered user (default_equities_active_weight config) /\
     fixed_income_sector_active tables
     = entered user (default_fixed_income_active_weight config) /\
     compute_level_2_tactical_allocations (equities_size_style config)
       (entered user (default_equities_active_weight config))
     = Ok (tactical_equities_size_style tables) /\
     compute_level_2_tactical_allocations (fixed_income_sector config)
       (entered user (default_fixed_income_active_weight config))
     = Ok (tactical_fixed_income_sector tables)).
Proof.
  split.
  - intros user d base title log. split.
    + now rewrite input_active_weights_run.
    + unfold ui_bind. now rewrite input_active_weights_run.
  - intros user config log tables log' H. unfold main_tables in H.
    apply ui_bind_ok in H as (tactical & l1 & _ & H).
    apply ui_bind_ok in H as (level_1 & l2 & _ & H).
    apply ui_bind_ok in H as (u & l3 & _ & H).
    apply ui_bind_ok in H as (eq_active & l4 & Heq & H).
    apply ui_bind_ok in H as (fi_active & l5 & Hfi & H).
    apply ui_bind_ok in H as (tactical_eq & l6 & Hteq & H).
    apply ui_bind_ok in H as (tactical_fi & l7 & Htfi & H).
    apply ui_bind_ok in H as (frames & l8 & _ & H).
    apply ui_bind_ok in H as (total & l9 & _ & H).
    rewrite input_active_weights_run in Heq, Hfi.
    injection Heq as <- _. injection Hfi as <- _.
    unfold ui_lift in Hteq, Htfi.
    injection Hteq as Hteq _. injection Htfi as Htfi _.
    unfold ui_ret in H. injection H as <- _. simpl. auto.
Qed.

(** In the worked configuration the fixed-income weights 3 and -2 fail the
    test, and the fixed-income tactical table is computed from them all the
    same. *)
Lemma validation_is_advisory_witness :
  exists tables log',
    main_tables example_user example_config [] = (Ok tables, log') /\
    In (StError msg_invalid) log' /\
    compute_level_2_tactical_allocations example_fixed_income
      [("Treasuries", num_of_Z 3); ("Corporate", num_of_Z (-2))]
    = Ok (tactical_fixed_income_sector tables).
Proof.
  assert (E : exists tables log',
             main_tables example_user example_config [] = (Ok tables, log') /\
             In (StError msg_invalid) log').
  { eexists. eexists. split; [vm_compute; reflexivity|].
    repeat (first [left; reflexivity | right]). }
  destruct E as (tables & log' & E & Hin).
  exists tables, log'. split; [exact E|]. split; [exact Hin|].
  destruct validation_is_advisory as [_ H].
  destruct (H example_user example_config [] tables log' E)
    as (_ & _ & _ & Hfi).
  exact Hfi.
Defined.

(** ** Reconciliation *)

Lemma mem_In (k : string) (l : list string) : mem k l = true <-> In k l.
Proof.
  unfold mem. rewrite existsb_exists. split.
  - intros (x & Hx & E). apply String.eqb_eq in E. now subst.
  - intros H. exists k. split; [exact H | apply String.eqb_refl].
Qed.

Lemma mem_false (k : string) (l : list string) : mem k l = false <-> ~ In k l.
Proof.
  rewrite <- mem_In. destruct (mem k l); split; intros H; congruence.
Qed.

Lemma mem_cons (k k' : string) (l : list string) :
  mem k (k' :: l) = String.eqb k k' || mem k l.
Proof. reflexivity. Qed.

Lemma set_row_index {C} (df : DataFrame C) r s :
  incl (index df) (index (set_row df r s)).
Proof.
  unfold set_row; simpl. destruct (mem r (index df)).
  - apply incl_refl.
  - apply incl_appl, incl_refl.
Qed.

Lemma set_typed_index df r typ s :
  incl (index df) (index (set_typed df r typ s)).
Proof.
  unfold set_typed; simpl. destruct (mem r (index df)).
  - apply incl_refl.
  - apply incl_appl, incl_refl.
Qed.

(** The first loop: the rows of the level-1 classes are copied. *)
Lemma copy_rows_spec (level_1_df : DataFrame column) (ks : list string)
  (df : DataFrame column) :
  incl ks (index level_1_df) ->
  exists df',
    foldM (fun df lvl1_asset_class =>
             row <- loc_row level_1_df lvl1_asset_class ;;
             Ok (set_row df lvl1_asset_class row)) ks df = Ok df' /\
    columns df' = columns df /\
    incl (index df) (index df') /\
    forall r c, value_at df' r c =
                if mem r ks then value_at level_1_df r c else value_at df r c.
Proof.
  revert df; induction ks as [|k ks IH]; intros df Hks; simpl.
  - exists df. repeat split; auto using incl_refl.
  - assert (Hk : mem k (index level_1_df) = true)
      by (apply mem_In, Hks; now left).
    unfold loc_row at 1. rewrite Hk. simpl.
    destruct (IH (set_row df k (value_at level_1_df k)))
      as (df' & Hrun & Hcols & Hidx & Hval).
    { intros x Hx. apply Hks. now right. }
    exists df'. split; [exact Hrun|]. split; [exact Hcols|]. split.
    + eapply incl_tran; [apply set_row_index | exact Hidx].
    + intros r c. rewrite Hval. simpl.
      change (existsb (String.eqb r) ks) with (mem r ks).
      destruct (String.eqb_spec r k) as [->|Hne]; simpl.
      * now destruct (mem k ks).
      * reflexivity.
Qed.

(** One sub-class row: the values under the Strategic and the Tactical
    columns are rebased on the parent row. *)
Lemma rebase_row_spec (level2_df : DataFrame string) (parent l : string)
  (df : DataFrame column) :
  In l (index level2_df) ->
  incl level2_types (columns level2_df) ->
  In parent (index df) ->
  (forall typ, In typ level2_types ->
     existsb (has_type typ) (columns df) = true) ->
  exists df',
    foldM (fun df typ =>
             own <- loc_cell level2_df l typ ;;
             parent_row <- loc_typed df parent typ ;;
             Ok (set_typed df l typ
                   (fun c => cell_div (cell_mul own (parent_row c))
                                      (Some hundred))))
          level2_types df = Ok df' /\
    columns df' = columns df /\
    incl (index df) (index df') /\
    forall r c, value_at df' r c =
                if String.eqb r l && mem (snd c) level2_types
                then cell_div (cell_mul (value_at level2_df l (snd c))
                                        (value_at df parent c))
                              (Some hundred)
                else value_at df r c.
Proof.
  intros Hl Hcols Hparent Htypes.
  assert (Hl' : mem l (index level2_df) = true) by now apply mem_In.
  assert (HS : mem "Strategic" (columns level2_df) = true)
    by (apply mem_In, Hcols; simpl; auto).
  assert (HT : mem "Tactical" (columns level2_df) = true)
    by (apply mem_In, Hcols; simpl; auto).
  assert (Hp : mem parent (index df) = true) by now apply mem_In.
  assert (HcS := Htypes "Strategic" (or_introl eq_refl)).
  assert (HcT := Htypes "Tactical" (or_intror (or_introl eq_refl))).
  simpl. unfold loc_cell. rewrite Hl', HS, HT. simpl.
  unfold loc_typed at 1. rewrite Hp, HcS. simpl.
  unfold loc_typed at 1.
  assert (Hp' : mem parent (index (set_typed df l "Strategic"
             (fun c => cell_div (cell_mul (value_at level2_df l "Strategic")
                                          (value_at df parent c))
                                (Some hundred)))) = true).
  { apply mem_In. apply set_typed_index. exact Hparent. }
  rewrite Hp'. simpl columns. rewrite HcT. simpl.
  eexists. split; [reflexivity|]. split; [reflexivity|]. split.
  - eapply incl_tran; apply set_typed_index.
  - intros r c. simpl. unfold has_type.
    destruct (String.eqb_spec r l) as [->|Hne]; simpl; [|reflexivity].
    destruct (String.eqb_spec (snd c) "Tactical") as [E|NT].
    + rewrite E. simpl. rewrite Bool.andb_false_r. reflexivity.
    + destruct (String.eqb_spec (snd c) "Strategic") as [E|NS].
      * rewrite E. reflexivity.
      * reflexivity.
Qed.

(** The loop over the sub-class rows of one parent.  Nothing outside the
    sub-class rows and the Strategic and Tactical columns changes; when the
    parent is none of the sub-classes, every rebased value is computed from
    the parent row as it was before the loop. *)
Lemma rebase_rows_gen (level2_df : DataFrame string) (parent : string)
  (ls : list string) (df : DataFrame column) :
  incl ls (index level2_df) ->
  incl level2_types (columns level2_df) ->
  In parent (index df) ->
  (forall typ, In typ level2_types ->
     existsb (has_type typ) (columns df) = true) ->
  exists df',
    foldM (fun df lvl2_asset_class =>
             foldM (fun df typ =>
                      own <- loc_cell level2_df lvl2_asset_class typ ;;
                      parent_row <- loc_typed df parent typ ;;
                      Ok (set_typed df lvl2_asset_class typ
                            (fun c => cell_div (cell_mul own (parent_row c))
                                               (Some hundred))))
                   level2_types df)
          ls df = Ok df' /\
    columns df' = columns df /\
    incl (index df) (index df') /\
    (forall r c, mem r ls && mem (snd c) level2_types = false ->
       value_at df' r c = value_at df r c) /\
    (~ In parent ls ->
     forall r c, mem r ls && mem (snd c) level2_types = true ->
       value_at df' r c =
       cell_div (cell_mul (value_at level2_df r (snd c))
                          (value_at df parent c))
                (Some hundred)).
Proof.
  revert df; induction ls as [|l ls IH]; intros df Hls Hcols Hparent Htypes.
  - simpl. exists df. repeat split; auto using incl_refl.
    intros _ r c H. discriminate.
  - destruct (rebase_row_spec level2_df parent l df)
      as (df1 & Hrun1 & Hcols1 & Hidx1 & Hval1); auto.
    { apply Hls. now left. }
    destruct (IH df1) as (df' & Hrun & Hcols' & Hidx & Hframe & Hval); auto.
    { intros x Hx. apply Hls. now right. }
    { intros typ Htyp. rewrite Hcols1. auto. }
    exists df'. split.
    { cbn [foldM]. rewrite Hrun1. exact Hrun. }
    split; [congruence|]. split; [eapply incl_tran; eauto|]. split.
    + intros r c H. rewrite mem_cons in H.
      rewrite Hframe, Hval1.
      * destruct (String.eqb r l); simpl in *; [now rewrite H | reflexivity].
      * destruct (mem r ls); [|reflexivity].
        rewrite Bool.orb_true_r in H. exact H.
    + intros Hnot r c H. rewrite mem_cons in H.
      assert (Hpl : String.eqb parent l = false).
      { apply String.eqb_neq. intros ->. apply Hnot. now left. }
      assert (Hpar : value_at df1 parent c = value_at df parent c).
      { rewrite Hval1, Hpl. reflexivity. }
      destruct (mem r ls) eqn:Er.
      * rewrite Hval.
        -- now rewrite Hpar.
        -- intros Hin. apply Hnot. now right.
        -- rewrite Er. rewrite Bool.orb_true_r in H. exact H.
      * rewrite Bool.orb_false_r in H. rewrite Hframe by now rewrite Er.
        rewrite Hval1, H.
        apply Bool.andb_true_iff in H as [E _].
        apply String.eqb_eq in E. now subst.
Qed.

Lemma rebase_rows_spec (level2_df : DataFrame string) (parent : string)
  (df : DataFrame column) :
  incl level2_types (columns level2_df) ->
  In parent (index df) ->
  (forall typ, In typ level2_types ->
     existsb (has_type typ) (columns df) = true) ->
  exists df',
    rebase_rows level2_df parent df = Ok df' /\
    columns df' = columns df /\
    incl (index df) (index df') /\
    (forall r c,
       mem r (index level2_df) && mem (snd c) level2_types = false ->
       value_at df' r c = value_at df r c) /\
    (~ In parent (index level2_df) ->
     forall r c,
       mem r (index level2_df) && mem (snd c) level2_types = true ->
       value_at df' r c =
       cell_div (cell_mul (value_at level2_df r (snd c))
                          (value_at df parent c))
                (Some hundred)).
Proof.
  intros. unfold rebase_rows. apply rebase_rows_gen; auto using incl_refl.
Qed.

Lemma hundred_nonzero : hundred <> 0.
Proof.
  unfold hundred, num_of_Z. intros H.
  change 0 with (Q2Qc 0) in H. apply Q2Qc_eq_iff in H. discriminate.
Qed.

(** Rebasing own-percentages that sum to [s] on a parent value [v] gives
    values that sum to [s * v / 100]. *)
Lemma rebased_sum (own : string -> cell) (v : num) (ls : list string) (s : num) :
  cell_sum (map own ls) = Some s ->
  cell_sum (map (fun l => cell_div (cell_mul (own l) (Some v)) (Some hundred))
                ls)
  = Some (s * v / hundred).
Proof.
  revert s; induction ls as [|l ls IH]; intros s; simpl.
  - intros H. injection H as <-. f_equal. field. exact hundred_nonzero.
  - destruct (own l) as [a|]; simpl; [|discriminate].
    destruct (cell_sum (map own ls)) as [s'|]; simpl; [|discriminate].
    intros H. injection H as <-. rewrite (IH s' eq_refl). simpl.
    f_equal. field. exact hundred_nonzero.
Qed.

Lemma NoDup_app_disjoint {A} (l l' : list A) (x : A) :
  NoDup (l ++ l') -> In x l -> ~ In x l'.
Proof.
  induction l as [|a l IH]; simpl; intros Hnd Hin Hin'; [contradiction|].
  inversion Hnd as [|? ? Hnotin Hnd']; subst.
  destruct Hin as [->|Hin].
  - apply Hnotin. apply in_or_app. now right.
  - now apply IH.
Qed.

Section Reconciliation.

Variable level_1_df : DataFrame column.
Variables equities_df fixed_income_df : DataFrame string.
Variable strategic : dict (list num).

(** The frames are the ones [main] builds: the level-1 frame has a row per
    level-1 class and columns of both types, the level-2 frames have the
    columns Strategic and Tactical. *)
Hypothesis level_1_rows : incl (keys strategic) (index level_1_df).
Hypothesis level_1_types :
  forall typ, In typ level2_types ->
    exists profile, In (profile, typ) (columns level_1_df).
Hypothesis equities_columns : incl level2_types (columns equities_df).
Hypothesis fixed_income_columns : incl level2_types (columns fixed_income_df).

(** Row labels name one row each. *)
Hypothesis labels_distinct :
  NoDup (keys strategic ++ index equities_df ++ index fixed_income_df).

Lemma level_1_types_present (cols : list column) :
  cols = columns level_1_df ->
  forall typ, In typ level2_types -> existsb (has_type typ) cols = true.
Proof.
  intros -> typ Htyp. destruct (level_1_types typ Htyp) as (profile & Hin).
  apply existsb_exists. exists (profile, typ). split; [exact Hin|].
  unfold has_type. apply String.eqb_refl.
Qed.

(** The three loops of [compute_total_allocations] in sequence. *)
Lemma compute_total_allocations_run :
  exists df1 df2 total,
    compute_total_allocations level_1_df equities_df fixed_income_df strategic
      = Ok total /\
    columns total = columns level_1_df /\
    (forall r c, value_at df1 r c =
                 if mem r (keys strategic) then value_at level_1_df r c
                 else None) /\
    (forall r c,
       mem r (index equities_df) && mem (snd c) level2_types = false ->
       value_at df2 r c = value_at df1 r c) /\
    (~ In "Equities" (index equities_df) ->
     forall r c,
       mem r (index equities_df) && mem (snd c) level2_types = true ->
       value_at df2 r c =
       cell_div (cell_mul (value_at equities_df r (snd c))
                          (value_at df1 "Equities" c)) (Some hundred)) /\
    (forall r c,
       mem r (index fixed_income_df) && mem (snd c) level2_types = false ->
       value_at total r c = value_at df2 r c) /\
    (~ In "Fixed Income" (index fixed_income_df) ->
     forall r c,
       mem r (index fixed_income_df) && mem (snd c) level2_types = true ->
       value_at total r c =
       cell_div (cell_mul (value_at fixed_income_df r (snd c))
                          (value_at df2 "Fixed Income" c)) (Some hundred)).
Proof.
  unfold compute_total_allocations.
  set (idx := ("Equities" :: index equities_df ++
               "Fixed Income" :: index fixed_income_df ++ "Cash" :: nil)%list).
  destruct (copy_rows_spec level_1_df (keys strategic)
              (empty_frame idx (columns level_1_df)) level_1_rows)
    as (df1 & Hrun1 & Hcols1 & Hidx1 & Hval1).
  simpl in Hcols1, Hidx1.
  destruct (rebase_rows_spec equities_df "Equities" df1)
    as (df2 & Hrun2 & Hcols2 & Hidx2 & Hframe2 & Hval2); auto.
  { apply Hidx1. subst idx. now left. }
  { now apply level_1_types_present. }
  destruct (rebase_rows_spec fixed_income_df "Fixed Income" df2)
    as (total & Hrun3 & Hcols3 & Hidx3 & Hframe3 & Hval3); auto.
  { apply Hidx2, Hidx1. subst idx. right. apply in_or_app. right. now left. }
  { apply level_1_types_present. congruence. }
  exists df1, df2, total. rewrite Hrun1. simpl. rewrite Hrun2. simpl.
  split; [exact Hrun3|]. split; [congruence|].
  split; [exact Hval1|]. auto.
Qed.

Lemma level_1_label_not_level_2 (k : string) :
  In k (keys strategic) ->
  mem k (index equities_df) = false /\ mem k (index fixed_income_df) = false.
Proof.
  intros Hk.
  pose proof (NoDup_app_disjoint _ _ k labels_distinct Hk) as Hnot.
  split; apply mem_false; intros Hin; apply Hnot, in_or_app; auto.
Qed.

Lemma equities_label_not_fixed_income (l : string) :
  In l (index equities_df) -> mem l (index fixed_income_df) = false.
Proof.
  intros Hl. apply mem_false.
  apply NoDup_app_remove_l in labels_distinct as Hnd.
  now apply (NoDup_app_disjoint _ _ l Hnd).
Qed.


Hypothesis equities_is_level_1 : In "Equities" (keys strategic).
Hypothesis fixed_income_is_level_1 : In "Fixed Income" (keys strategic).

Lemma total_rows_values :
  exists total,
    compute_total_allocations level_1_df equities_df fixed_income_df strategic
      = Ok total /\
    (forall k c, In k (keys strategic) ->
       value_at total k c = value_at level_1_df k c) /\
    (forall l profile typ,
       In l (index equities_df) -> In typ level2_types ->
       value_at total l (profile, typ) =
       cell_div (cell_mul (value_at equities_df l typ)
                          (value_at level_1_df "Equities" (profile, typ)))
                (Some hundred)) /\
    (forall l profile typ,
       In l (index fixed_income_df) -> In typ level2_types ->
       value_at total l (profile, typ) =
       cell_div (cell_mul (value_at fixed_income_df l typ)
                          (value_at level_1_df "Fixed Income" (profile, typ)))
                (Some hundred)).
Proof.
  destruct compute_total_allocations_run
    as (df1 & df2 & total & Hrun & _ & H1 & H2 & V2 & H3 & V3).
  destruct (level_1_label_not_level_2 _ equities_is_level_1) as [Ee Ef].
  destruct (level_1_label_not_level_2 _ fixed_income_is_level_1) as [Fe Ff].
  assert (Hlevel1 : forall k c, In k (keys strategic) ->
            value_at total k c = value_at level_1_df k c).
  { intros k c Hk.
    destruct (level_1_label_not_level_2 k Hk) as [He Hf].
    rewrite H3 by now rewrite Hf. rewrite H2 by now rewrite He.
    rewrite H1. apply mem_In in Hk. now rewrite Hk. }
  assert (Hty : forall typ, In typ level2_types ->
            mem typ level2_types = true) by (intros; now apply mem_In).
  exists total. split; [exact Hrun|]. split; [exact Hlevel1|]. split.
  - intros l profile typ Hl Htyp.
    rewrite H3
      by (simpl snd; now rewrite (equities_label_not_fixed_income l Hl)).
    rewrite V2.
    + simpl snd. rewrite H1.
      apply mem_In in equities_is_level_1 as ->. reflexivity.
    + now apply mem_false.
    + simpl snd. apply mem_In in Hl as ->. now rewrite Hty.
  - intros l profile typ Hl Htyp.
    rewrite V3.
    + simpl snd. rewrite H2 by now rewrite Fe. rewrite H1.
      apply mem_In in fixed_income_is_level_1 as ->. reflexivity.
    + now apply mem_false.
    + simpl snd. apply mem_In in Hl as ->. now rewrite Hty.
Qed.



End Reconciliation.

(** ** The worked configuration *)

Lemma example_level_1_rows :
  incl (keys example_strategic) (index example_level_1_df).
Proof. vm_compute. tauto. Qed.

Lemma example_level_1_types :
  forall typ, In typ level2_types ->
    exists profile, In (profile, typ) (columns example_level_1_df).
Proof.
  intros typ [<-|[<-|[]]]; exists "Moderate"; vm_compute; tauto.
Qed.

Lemma example_equities_columns :
  incl level2_types (columns example_equities_df).
Proof. apply incl_refl. Qed.

Lemma example_fixed_income_columns :
  incl level2_types (columns example_fixed_income_df).
Proof. apply incl_refl. Qed.

Lemma example_labels_distinct :
  NoDup (keys example_strategic ++ index example_equities_df ++
         index example_fixed_income_df).
Proof.
  vm_compute. repeat constructor; simpl; intuition discriminate.
Qed.




(** [main] on the worked configuration builds the frames used above and the
    total table that [compute_total_allocations] computes from them. *)
Example main_tables_example :
  exists tables log',
    main_tables example_user example_config [] = (Ok tables, log') /\
    tactical_allocations tables = example_tactical /\
    to_rows (level_1_allocation_df tables) = to_rows example_level_1_df /\
    to_rows (equities_df tables) = to_rows example_equities_df /\
    to_rows (fixed_income_df tables) = to_rows example_fixed_income_df /\
    Ok (to_rows (df_total_allocations tables))
    = (total <- compute_total_allocations example_level_1_df
                  example_equities_df example_fixed_income_df
                  example_strategic ;;
       Ok (to_rows total)).
Proof.
  eexists. eexists. split; [vm_compute; reflexivity|].
  repeat split; vm_compute; reflexivity.
Qed.

(** The total table of the worked configuration under the Moderate
    profile, row by row. *)
Example total_table_moderate :
  (total <- compute_total_allocations example_level_1_df example_equities_df
              example_fixed_income_df example_strategic ;;
   Ok (map (fun r => (r, value_at total r ("Moderate", "Strategic"),
                         value_at total r ("Moderate", "Tactical")))
           (index total)))
  = Ok [("Equities", Some (num_of_Z 60), Some (num_of_Z 62));
        ("Large Cap Growth", Some (dec 174 10), Some (dec 186 10));
        ("Large Cap Value", Some (dec 186 10), Some (dec 186 10));
        ("Small Growth", Some (num_of_Z 24), Some (dec 248 10));
        ("Fixed Income", Some (num_of_Z 35), Some (num_of_Z 33));
        ("Treasuries", Some (dec 175 10), Some (dec 1749 100));
        ("Corporate", Some (dec 175 10), Some (dec 1584 100));
        ("Cash", Some (num_of_Z 5), Some (num_of_Z 5))].
Proof.
  vm_compute.
  repeat (f_equal; try (apply Qc_is_canon; reflexivity)).
Qed.

(** ** The script [src/app.py] *)

Lemma mapM_ext_in {A B} (f g : A -> result B) (l : list A) :
  (forall x, In x l -> f x = g x) -> mapM f l = mapM g l.
Proof.
  induction l as [|x xs IH]; intros H; simpl; [reflexivity|].
  rewrite (H x (or_introl eq_refl)), IH; [reflexivity|].
  intros y Hy. apply H. now right.
Qed.

Lemma mapM_enumerate_id {A} (f : nat * string -> result A)
  (profiles : list string) (row : list A) :
  List.length row = List.length profiles ->
  (forall i p x, nth_error profiles i = Some p -> nth_error row i = Some x ->
     f (i, p) = Ok x) ->
  mapM f (enumerate profiles) = Ok row.
Proof.
  intros Hlen Hf. apply mapM_ok. unfold enumerate.
  assert (Hgen : forall start (ps : list string) (r : list A),
            List.length r = List.length ps ->
            (forall i p x, nth_error ps i = Some p -> nth_error r i = Some x ->
               f ((start + i)%nat, p) = Ok x) ->
            Forall2 (fun ip y => f ip = Ok y)
                    (combine (seq start (List.length ps)) ps) r).
  { intros start ps; revert start.
    induction ps as [|p ps IH]; intros start [|x r] Hl H; simpl in *;
      try discriminate; constructor.
    - rewrite <- (Nat.add_0_r start). now apply (H 0%nat).
    - apply IH; [lia|]. intros i q y Hq Hy.
      rewrite Nat.add_succ_comm. now apply (H (S i)). }
  apply (Hgen 0%nat); assumption.
Qed.

(** X7.  On a table over Stocks, Bonds and Cash with one entry per profile,
    the script computes the table that [compute_tactical_allocations]
    computes with the active weights [(w, -w, 0)]. *)
Lemma legacy_tactical_allocations_agree (strategic : dict (list num))
  (multipliers : dict num) (profiles : list string) (w : num) :
  keys strategic = ["Stocks"; "Bonds"; "Cash"] ->
  incl profiles (keys multipliers) ->
  (forall a row, In (a, row) strategic ->
     List.length row = List.length profiles) ->
  exists tactical,
    Legacy.tactical_allocations strategic multipliers profiles w
      = Ok tactical /\
    compute_tactical_allocations strategic multipliers profiles
      (Legacy.active_weight w) = Ok tactical.
Proof.
  intros Hkeys Hm Hlen.
  assert (Hin : forall a, In a (keys strategic) ->
            exists row, getitem strategic a = Ok row /\
                        List.length row = List.length profiles).
  { intros a Ha. apply getitem_in in Ha as (row & Hrow). exists row.
    split; [exact Hrow|]. eapply Hlen, getitem_In_pair; eauto. }
  destruct (Hin "Cash") as (cash & Hcash & Lcash);
    [rewrite Hkeys; simpl; auto|].
  unfold compute_tactical_allocations, Legacy.tactical_allocations.
  rewrite Hkeys. cbn [mapM].
  assert (Hs : Legacy.shifted_row strategic multipliers profiles "Stocks"
                 (fun s m => s + m * w)
               = tactical_row strategic multipliers profiles
                   (Legacy.active_weight w) "Stocks").
  { apply mapM_ext_in. intros [i p] _. unfold tactical_cell. simpl.
    destruct (getitem strategic "Stocks") as [row|]; simpl; [|reflexivity].
    destruct (list_getitem row i); simpl; [|reflexivity].
    destruct (getitem multipliers p); reflexivity. }
  assert (Hb : Legacy.shifted_row strategic multipliers profiles "Bonds"
                 (fun s m => s - m * w)
               = tactical_row strategic multipliers profiles
                   (Legacy.active_weight w) "Bonds").
  { apply mapM_ext_in. intros [i p] _. unfold tactical_cell. simpl.
    destruct (getitem strategic "Bonds") as [row|]; simpl; [|reflexivity].
    destruct (list_getitem row i); simpl; [|reflexivity].
    destruct (getitem multipliers p); simpl; [|reflexivity].
    f_equal. ring. }
  assert (Hc : tactical_row strategic multipliers profiles
                 (Legacy.active_weight w) "Cash" = Ok cash).
  { apply mapM_enumerate_id; [exact Lcash|].
    intros i p x Hp Hx. unfold tactical_cell, list_getitem.
    rewrite Hcash; simpl. rewrite Hx; simpl.
    assert (Hp' : In p (keys multipliers))
      by (apply Hm; eapply nth_error_In; eauto).
    apply getitem_in in Hp' as (m & ->). simpl. f_equal. ring. }
  rewrite Hs, Hb, Hc, Hcash.
  destruct (tactical_row_total strategic multipliers profiles
              (Legacy.active_weight w) "Stocks") as (stocks & ->).
  { intros i p Hp. repeat split.
    - apply Hm. eapply nth_error_In; eauto.
    - simpl. auto.
    - destruct (Hin "Stocks") as (row & Hrow & L);
        [rewrite Hkeys; simpl; auto|].
      exists row. split; [exact Hrow|]. rewrite L.
      apply nth_error_Some. congruence. }
  destruct (tactical_row_total strategic multipliers profiles
              (Legacy.active_weight w) "Bonds") as (bonds & ->).
  { intros i p Hp. repeat split.
    - apply Hm. eapply nth_error_In; eauto.
    - simpl. auto.
    - destruct (Hin "Bonds") as (row & Hrow & L);
        [rewrite Hkeys; simpl; auto|].
      exists row. split; [exact Hrow|]. rewrite L.
      apply nth_error_Some. congruence. }
  simpl. eauto.
Qed.

(** With the display of active weights switched on, [add_difference_column]
    writes the Difference columns into the level-1 frame that [main] goes on
    to use: the total table has these columns, with the level-1 values in
    the level-1 rows and no value in the sub-class rows. *)
Example total_table_difference_columns :
  exists tables log',
    main_tables (mkUser true (num_of_Z 2) (fun _ value => value))
                example_config [] = (Ok tables, log') /\
    columns (df_total_allocations tables)
    = [("Aggressive", "Strategic"); ("Aggressive", "Tactical");
       ("Moderate", "Strategic"); ("Moderate", "Tactical");
       ("Conservative", "Strategic"); ("Conservative", "Tactical");
       ("Aggressive", "Difference"); ("Moderate", "Difference");
       ("Conservative", "Difference")] /\
    value_at (df_total_allocations tables) "Equities"
             ("Moderate", "Difference") = Some (num_of_Z 2) /\
    value_at (df_total_allocations tables) "Large Cap Growth"
             ("Moderate", "Difference") = None /\
    value_at (df_total_allocations tables) "Large Cap Growth"
             ("Moderate", "Tactical") = Some (dec 186 10).
Proof.
  eexists. eexists. split; [vm_compute; reflexivity|].
  repeat split; vm_compute; try reflexivity;
    f_equal; apply Qc_is_canon; reflexivity.
Qed.

(** * Further properties of the code *)

(** ** Level 2: keys *)

Lemma mapM_raises_at {A B} (f : A -> result B) (l1 l2 : list A) (x : A) e :
  (forall y, In y l1 -> exists b, f y = Ok b) ->
  f x = Raise e ->
  mapM f (l1 ++ x :: l2) = Raise e.
Proof.
  induction l1 as [|y l1 IH]; intros Hok Hx; simpl.
  - now rewrite Hx.
  - destruct (Hok y (or_introl eq_refl)) as (b & ->). simpl.
    rewrite IH; auto. intros z Hz. apply Hok. now right.
Qed.

(** X1.  [compute_level_2_tactical_allocations] raises [KeyError] for the
    first key of the baseline, in the order of the dict, that the active
    weights lack. *)
Theorem compute_level_2_first_missing_key (base aw : dict num)
  (found missing : list string) (k : string) :
  keys base = (found ++ k :: missing)%list ->
  incl found (keys aw) ->
  ~ In k (keys aw) ->
  compute_level_2_tactical_allocations base aw = Raise (KeyError k).
Proof.
  intros Hkeys Hfound Hk. unfold compute_level_2_tactical_allocations.
  assert (Hbase : forall x, In x (keys base) -> exists b, getitem base x = Ok b)
    by (intros x Hx; now apply getitem_in).
  rewrite Hkeys in *. apply mapM_raises_at.
  - intros y Hy.
    destruct (Hbase y) as (b & ->); [apply in_or_app; now left|].
    apply Hfound, getitem_in in Hy as (a & ->). simpl. eauto.
  - destruct (Hbase k) as (b & ->); [apply in_or_app; right; now left|].
    simpl. now rewrite (getitem_raises aw k Hk).
Qed.

Lemma compute_level_2_first_missing_key_witness :
  compute_level_2_tactical_allocations example_equities
    [("Large Cap Growth", num_of_Z 1); ("Small Growth", num_of_Z (-1))]
  = Raise (KeyError "Large Cap Value").
Proof.
  apply (compute_level_2_first_missing_key example_equities _
           ("Large Cap Growth" :: nil) ("Small Growth" :: nil)).
  - reflexivity.
  - intros x Hx. in_list.
  - simpl. intuition discriminate.
Defined.

(** X2.  The result of [compute_level_2_tactical_allocations] depends on the
    active weights only through the keys of the baseline: entries under
    other keys are never read. *)
Theorem compute_level_2_reads_baseline_keys (base aw aw' : dict num) :
  (forall k, In k (keys base) -> getitem aw k = getitem aw' k) ->
  compute_level_2_tactical_allocations base aw
  = compute_level_2_tactical_allocations base aw'.
Proof.
  intros H. unfold compute_level_2_tactical_allocations.
  apply mapM_ext_in. intros k Hk. now rewrite (H k Hk).
Qed.

Lemma compute_level_2_reads_baseline_keys_witness :
  compute_level_2_tactical_allocations example_fixed_income
    [("Treasuries", num_of_Z 3); ("Municipal", num_of_Z 7);
     ("Corporate", num_of_Z (-2))]
  = compute_level_2_tactical_allocations example_fixed_income
      [("Treasuries", num_of_Z 3); ("Corporate", num_of_Z (-2))].
Proof.
  apply compute_level_2_reads_baseline_keys.
  intros k Hk. in_list.
Defined.

Lemma mapM_keys_id {V} (f : string -> result (string * V)) (d : dict V) :
  NoDup (keys d) ->
  (forall k v, In (k, v) d -> f k = Ok (k, v)) ->
  mapM f (keys d) = Ok d.
Proof.
  intros _ H. induction d as [|[k v] d IH]; simpl; [reflexivity|].
  rewrite (H k v (or_introl eq_refl)). simpl.
  rewrite IH; [reflexivity|]. intros k' v' Hin. apply H. now right.
Qed.

(** X3.  Active weights that are all zero leave the baseline as it is. *)
Theorem compute_level_2_zero_weights (base aw : dict num) :
  NoDup (keys base) ->
  (forall k, In k (keys base) -> getitem aw k = Ok 0) ->
  compute_level_2_tactical_allocations base aw = Ok base.
Proof.
  intros Hnd Hzero. unfold compute_level_2_tactical_allocations.
  apply mapM_keys_id; [exact Hnd|]. intros k v Hin.
  rewrite (In_getitem base k v Hnd Hin). simpl.
  rewrite (Hzero k (in_map fst _ _ Hin)). simpl.
  f_equal. f_equal. ring.
Qed.

Lemma compute_level_2_zero_weights_witness :
  compute_level_2_tactical_allocations example_fixed_income
    [("Corporate", 0); ("Treasuries", 0)]
  = Ok example_fixed_income.
Proof.
  apply compute_level_2_zero_weights.
  - repeat constructor; simpl; intuition discriminate.
  - intros k Hk. in_list.
Defined.

(** ** Level 1: neutral weights, weight keys, the script *)

(** X4.  Active weights that are all zero leave a strategic table with one
    entry per profile as it is. *)
Theorem compute_tactical_allocations_zero_weights
  (strategic : dict (list num)) (multipliers : dict num)
  (profiles : list string) (aw : dict num) :
  NoDup (keys strategic) ->
  incl profiles (keys multipliers) ->
  (forall a, In a (keys strategic) -> getitem aw (weight_key a) = Ok 0) ->
  (forall a row, In (a, row) strategic ->
     List.length row = List.length profiles) ->
  compute_tactical_allocations strategic multipliers profiles aw
  = Ok strategic.
Proof.
  intros Hnd Hm Hzero Hlen. unfold compute_tactical_allocations.
  apply mapM_keys_id; [exact Hnd|]. intros a row Hin.
  assert (Hrow : tactical_row strategic multipliers profiles aw a = Ok row).
  { apply mapM_enumerate_id; [eauto|].
    intros i p x Hp Hx. unfold tactical_cell, list_getitem.
    rewrite (In_getitem strategic a row Hnd Hin); simpl. rewrite Hx; simpl.
    assert (Hp' : In p (keys multipliers))
      by (apply Hm; eapply nth_error_In; eauto).
    apply getitem_in in Hp' as (m & ->). simpl.
    rewrite (Hzero a (in_map fst _ _ Hin)). simpl. f_equal. ring. }
  rewrite Hrow. reflexivity.
Qed.

Lemma compute_tactical_allocations_zero_weights_witness :
  compute_tactical_allocations example_strategic example_multipliers
    example_profiles (moderate_active_weight 0)
  = Ok example_strategic.
Proof.
  apply compute_tactical_allocations_zero_weights.
  - repeat constructor; simpl; intuition discriminate.
  - apply incl_refl.
  - intros a Ha. in_list.
  - intros a row Ha. in_list.
Defined.

Lemma weight_char_normal (c : ascii) :
  let g := fun c => if Ascii.eqb (lower_ascii c) " " then "_"%char
                    else lower_ascii c in
  g (g c) = g c /\ g c <> " "%char /\
  ((65 <=? nat_of_ascii (g c))%nat && (nat_of_ascii (g c) <=? 90)%nat) = false.
Proof.
  destruct c as [[] [] [] [] [] [] [] []]; vm_compute;
    repeat split; discriminate.
Qed.

Lemma weight_key_chars (s : string) :
  list_ascii_of_string (weight_key s)
  = map (fun c => if Ascii.eqb (lower_ascii c) " " then "_"%char
                  else lower_ascii c)
        (list_ascii_of_string s).
Proof.
  unfold weight_key. induction s as [|c s IH]; simpl; [reflexivity|].
  now rewrite IH.
Qed.

(** X5.  [asset.lower().replace(" ", "_")] on an ASCII label: the weight key
    has the length of the label, contains no space and no upper-case letter,
    and is its own weight key. *)
Theorem weight_key_normal_form (s : string) :
  String.length (weight_key s) = String.length s /\
  (forall c, In c (list_ascii_of_string (weight_key s)) ->
     c <> " "%char /\ ~ (65 <= nat_of_ascii c <= 90)%nat) /\
  weight_key (weight_key s) = weight_key s.
Proof.
  split; [|split].
  - unfold weight_key. induction s as [|c s IH]; simpl; congruence.
  - intros c Hc. rewrite weight_key_chars in Hc.
    apply in_map_iff in Hc as (c0 & <- & _).
    destruct (weight_char_normal c0) as (_ & Hsp & Hup). split; [exact Hsp|].
    intros [H1 H2]. apply Nat.leb_le in H1, H2.
    cbv zeta in Hup. rewrite H1, H2 in Hup. discriminate.
  - rewrite <- (string_of_list_ascii_of_string (weight_key (weight_key s))).
    rewrite <- (string_of_list_ascii_of_string (weight_key s)) at 2.
    f_equal. rewrite !weight_key_chars, map_map.
    apply map_ext. intros c. now destruct (weight_char_normal c) as (H & _).
Qed.

(** X6.  With the level-1 active weights that [main] builds, a table is
    returned for at least one profile only if the weight key of every
    level-1 class is one of equities, fixed_income and cash. *)
Theorem main_level_1_classes (strategic : dict (list num))
  (multipliers : dict num) (profiles : list string) (w : num)
  (tactical : dict (list num)) :
  compute_tactical_allocations strategic multipliers profiles
    (moderate_active_weight w) = Ok tactical ->
  profiles <> [] ->
  forall a, In a (keys strategic) ->
    In (weight_key a) ["equities"; "fixed_income"; "cash"].
Proof.
  intros Ht Hp a Ha.
  apply compute_tactical_allocations_shape in Ht.
  destruct (comprehension_getitem _ _ _ a Ht Ha) as (trow & _ & Hrow).
  apply tactical_row_ok in Hrow as [_ Hrow].
  destruct profiles as [|p ps]; [contradiction|].
  destruct (Hrow 0%nat p eq_refl) as (_ & _ & _ & x & _ & _ & _ & Hw & _).
  assert (Hin : In (weight_key a) (keys (moderate_active_weight w)))
    by (apply getitem_in; eauto).
  exact Hin.
Qed.

Lemma main_level_1_classes_witness :
  In (weight_key "Fixed Income") ["equities"; "fixed_income"; "cash"].
Proof.
  apply (main_level_1_classes example_strategic example_multipliers
           example_profiles (num_of_Z 2) example_tactical).
  - vm_compute. reflexivity.
  - discriminate.
  - simpl. tauto.
Defined.

Lemma legacy_tactical_allocations_agree_witness :
  exists tactical,
    Legacy.tactical_allocations legacy_strategic example_multipliers
      example_profiles (num_of_Z 2) = Ok tactical /\
    compute_tactical_allocations legacy_strategic example_multipliers
      example_profiles (Legacy.active_weight (num_of_Z 2)) = Ok tactical.
Proof.
  apply legacy_tactical_allocations_agree.
  - reflexivity.
  - apply incl_refl.
  - intros a row Ha. in_list.
Defined.

(** ** Reconciliation: errors, row order, empty cells *)

Lemma foldM_raises_at {A S} (f : S -> A -> result S) (l1 l2 : list A)
  (x : A) (s : S) e :
  (forall s' y, In y l1 -> exists s'', f s' y = Ok s'') ->
  (forall s', f s' x = Raise e) ->
  foldM f (l1 ++ x :: l2) s = Raise e.
Proof.
  revert s; induction l1 as [|y l1 IH]; intros s Hok Hx; simpl.
  - now rewrite Hx.
  - destruct (Hok s y (or_introl eq_refl)) as (s'' & ->). simpl.
    apply IH; auto. intros s' z Hz. apply Hok. now right.
Qed.

(** X8.  [compute_total_allocations] raises [KeyError] for the first key of
    [strategic_allocations] that is no row label of the level-1 frame. *)
Theorem compute_total_allocations_missing_row
  (level_1_df : DataFrame column) (equities_df fixed_income_df : DataFrame string)
  (strategic : dict (list num)) (found missing : list string) (k : string) :
  keys strategic = (found ++ k :: missing)%list ->
  incl found (index level_1_df) ->
  ~ In k (index level_1_df) ->
  compute_total_allocations level_1_df equities_df fixed_income_df strategic
  = Raise (KeyError k).
Proof.
  intros Hkeys Hfound Hk. unfold compute_total_allocations.
  rewrite Hkeys. rewrite foldM_raises_at with (e := KeyError k).
  - reflexivity.
  - intros df y Hy. unfold loc_row.
    apply Hfound, mem_In in Hy. rewrite Hy. simpl. eauto.
  - intros df. unfold loc_row. apply mem_false in Hk. now rewrite Hk.
Qed.

Lemma compute_total_allocations_missing_row_witness :
  compute_total_allocations example_level_1_df example_equities_df
    example_fixed_income_df
    [("Equities", []); ("Alternatives", []); ("Cash", [])]
  = Raise (KeyError "Alternatives").
Proof.
  apply (compute_total_allocations_missing_row _ _ _ _
           ("Equities" :: nil) ("Cash" :: nil)).
  - reflexivity.
  - intros x Hx. in_list.
  - vm_compute. intuition discriminate.
Defined.

Lemma copy_rows_index (level_1_df : DataFrame column) (ks : list string)
  (df df' : DataFrame column) :
  foldM (fun df lvl1_asset_class =>
           row <- loc_row level_1_df lvl1_asset_class ;;
           Ok (set_row df lvl1_asset_class row)) ks df = Ok df' ->
  exists extra,
    index df' = (index df ++ extra)%list /\ NoDup extra /\
    forall k, In k extra <-> In k ks /\ ~ In k (index df).
Proof.
  revert df; induction ks as [|k ks IH]; intros df H; simpl in H.
  - injection H as <-. exists []. rewrite app_nil_r.
    repeat split; try constructor; simpl; tauto.
  - apply bind_ok in H as (df1 & H1 & H).
    apply bind_ok in H1 as (row & _ & H1). injection H1 as <-.
    destruct (IH _ H) as (extra & Hidx & Hnd & Hin). simpl in Hidx, Hin.
    destruct (mem k (index df)) eqn:Ek.
    + exists extra. split; [exact Hidx|]. split; [exact Hnd|].
      intros x. rewrite Hin. apply mem_In in Ek. simpl.
      split; [tauto|]. intros [[<-|Hx] Hn]; tauto.
    + apply mem_false in Ek. exists (k :: extra).
      rewrite Hidx, <- app_assoc. split; [reflexivity|]. split.
      * constructor; [|exact Hnd]. intros Hk. apply Hin in Hk as [_ Hk].
        apply Hk, in_or_app. right. now left.
      * intros x. simpl. rewrite Hin.
        destruct (string_dec k x) as [<-|Hne].
        -- tauto.
        -- split.
           ++ intros [Heq|[Hx Hn]]; [contradiction|]. split; [tauto|].
              intros Hi. apply Hn, in_or_app. now left.
           ++ intros [[Heq|Hx] Hn]; [contradiction|]. right.
              split; [exact Hx|]. intros Hi.
              apply in_app_or in Hi as [Hi|[Hi|[]]]; tauto.
Qed.

Lemma rebase_rows_index (level2_df : DataFrame string) (parent : string)
  (ls : list string) (df df' : DataFrame column) :
  foldM (fun df lvl2_asset_class =>
           foldM (fun df typ =>
                    own <- loc_cell level2_df lvl2_asset_class typ ;;
                    parent_row <- loc_typed df parent typ ;;
                    Ok (set_typed df lvl2_asset_class typ
                          (fun c => cell_div (cell_mul own (parent_row c))
                                             (Some hundred))))
                 level2_types df)
        ls df = Ok df' ->
  incl ls (index df) ->
  index df' = index df.
Proof.
  revert df; induction ls as [|l ls IH]; intros df H Hls.
  - injection H as <-. reflexivity.
  - cbn [foldM] in H. apply bind_ok in H as (df1 & H1 & H).
    assert (Hl : mem l (index df) = true) by (apply mem_In, Hls; now left).
    assert (E1 : index df1 = index df).
    { cbn [foldM level2_types] in H1.
      apply bind_ok in H1 as (dS & HS & H1).
      apply bind_ok in H1 as (dT & HT & H1). injection H1 as <-.
      apply bind_ok in HS as (oS & _ & HS).
      apply bind_ok in HS as (pS & _ & HS). injection HS as <-.
      apply bind_ok in HT as (oT & _ & HT).
      apply bind_ok in HT as (pT & _ & HT). injection HT as <-.
      simpl. rewrite Hl. simpl. now rewrite Hl. }
    rewrite (IH df1 H); [exact E1|].
    rewrite E1. intros x Hx. apply Hls. now right.
Qed.

Lemma compute_total_allocations_index
  (level_1_df : DataFrame column) (equities_df fixed_income_df : DataFrame string)
  (strategic : dict (list num)) (total : DataFrame column) :
  compute_total_allocations level_1_df equities_df fixed_income_df strategic
    = Ok total ->
  let idx := ("Equities" :: index equities_df ++
              "Fixed Income" :: index fixed_income_df ++ "Cash" :: nil)%list in
  exists extra,
    index total = (idx ++ extra)%list /\ NoDup extra /\
    (forall k, In k extra <-> In k (keys strategic) /\ ~ In k idx) /\
    columns total = columns level_1_df.
Proof.
  intros H idx. unfold compute_total_allocations in H. fold idx in H.
  apply bind_ok in H as (df1 & H1 & H).
  apply bind_ok in H as (df2 & H2 & H3).
  destruct (copy_rows_index _ _ _ _ H1) as (extra & Hidx & Hnd & Hin).
  change (index (empty_frame idx (columns level_1_df))) with idx in Hidx, Hin.
  unfold rebase_rows in H2, H3.
  assert (E2 : index df2 = index df1).
  { apply (rebase_rows_index _ _ _ _ _ H2). rewrite Hidx.
    intros x Hx. subst idx. simpl. rewrite !in_app_iff. tauto. }
  assert (E3 : index total = index df2).
  { apply (rebase_rows_index _ _ _ _ _ H3). rewrite E2, Hidx.
    intros x Hx. subst idx. simpl. rewrite !in_app_iff. simpl.
    rewrite !in_app_iff. tauto. }
  exists extra. split; [congruence|]. split; [exact Hnd|].
  split; [exact Hin|].
  assert (C1 : columns df1 = columns level_1_df).
  { clear - H1. 
    assert (G : forall ks (df df' : DataFrame column),
              foldM (fun df k => row <- loc_row level_1_df k ;;
                                 Ok (set_row df k row)) ks df = Ok df' ->
              columns df' = columns df).
    { induction ks as [|k ks IH]; intros df df' H; simpl in H.
      - now injection H as <-.
      - apply bind_ok in H as (d & Hd & H).
        apply bind_ok in Hd as (row & _ & Hd). injection Hd as <-.
        now rewrite (IH _ _ H). }
    now rewrite (G _ _ _ H1). }
  assert (G2 : forall level2_df parent ls (df df' : DataFrame column),
            foldM (fun df lvl2_asset_class =>
               foldM (fun df typ =>
                        own <- loc_cell level2_df lvl2_asset_class typ ;;
                        parent_row <- loc_typed df parent typ ;;
                        Ok (set_typed df lvl2_asset_class typ
                              (fun c => cell_div (cell_mul own (parent_row c))
                                                 (Some hundred))))
                     level2_types df) ls df = Ok df' ->
            columns df' = columns df).
  { intros level2_df parent. induction ls as [|l ls IH]; intros df df' Hf.
    - now injection Hf as <-.
    - cbn [foldM] in Hf. apply bind_ok in Hf as (d1 & Hd & Hf).
      rewrite (IH _ _ Hf). cbn [foldM level2_types] in Hd.
      apply bind_ok in Hd as (dS & HS & Hd).
      apply bind_ok in Hd as (dT & HT & Hd). injection Hd as <-.
      apply bind_ok in HS as (oS & _ & HS).
      apply bind_ok in HS as (pS & _ & HS). injection HS as <-.
      apply bind_ok in HT as (oT & _ & HT).
      apply bind_ok in HT as (pT & _ & HT). injection HT as <-.
      reflexivity. }
  rewrite (G2 _ _ _ _ _ H3), (G2 _ _ _ _ _ H2). exact C1.
Qed.

(** X9.  The rows of the total table are Equities, the equity sub-classes,
    Fixed Income, the fixed-income sub-classes and Cash, in this order,
    followed by the keys of [strategic_allocations] that are none of these
    labels, each once. *)
Theorem compute_total_allocations_row_order
  (level_1_df : DataFrame column) (equities_df fixed_income_df : DataFrame string)
  (strategic : dict (list num)) (total : DataFrame column) :
  compute_total_allocations level_1_df equities_df fixed_income_df strategic
    = Ok total ->
  let idx := ("Equities" :: index equities_df ++
              "Fixed Income" :: index fixed_income_df ++ "Cash" :: nil)%list in
  exists extra,
    index total = (idx ++ extra)%list /\ NoDup extra /\
    (forall k, In k extra <-> In k (keys strategic) /\ ~ In k idx) /\
    columns total = columns level_1_df.
Proof.
  exact (compute_total_allocations_index level_1_df equities_df
           fixed_income_df strategic total).
Qed.

Lemma compute_total_allocations_row_order_witness :
  exists total,
    compute_total_allocations example_level_1_df example_equities_df
      example_fixed_income_df example_strategic = Ok total /\
    index total
    = ["Equities"; "Large Cap Growth"; "Large Cap Value"; "Small Growth";
       "Fixed Income"; "Treasuries"; "Corporate"; "Cash"].
Proof.
  assert (E : exists total,
             compute_total_allocations example_level_1_df example_equities_df
               example_fixed_income_df example_strategic = Ok total)
    by (eexists; vm_compute; reflexivity).
  destruct E as (total & E). exists total. split; [exact E|].
  destruct (compute_total_allocations_row_order _ _ _ _ _ E)
    as (extra & Hidx & _ & Hin & _).
  destruct extra as [|k extra].
  - rewrite Hidx. reflexivity.
  - exfalso. destruct (Hin k) as [Hk _].
    destruct (Hk (or_introl eq_refl)) as [Hs Hn].
    apply Hn. simpl in Hs |- *. tauto.
Defined.

Section ReconciliationEdges.

Variable level_1_df : DataFrame column.
Variables equities_df fixed_income_df : DataFrame string.
Variable strategic : dict (list num).

Hypothesis level_1_has_rows : incl (keys strategic) (index level_1_df).
Hypothesis level_1_has_types :
  forall typ, In typ level2_types ->
    exists profile, In (profile, typ) (columns level_1_df).
Hypothesis equities_has_columns : incl level2_types (columns equities_df).
Hypothesis fixed_income_has_columns :
  incl level2_types (columns fixed_income_df).

(** X10.  A row of the total table whose label is no key of
    [strategic_allocations] has no value (NaN) under a column unless it is a
    sub-class row and the column is a Strategic or Tactical one: the Cash
    row of a configuration without a Cash class is empty, and sub-class rows
    are empty under any other column, such as the Difference columns. *)
Theorem total_table_empty_cells :
  exists total,
    compute_total_allocations level_1_df equities_df fixed_income_df strategic
      = Ok total /\
    forall r c,
      ~ In r (keys strategic) ->
      ~ In r (index equities_df ++ index fixed_income_df) \/
      ~ In (snd c) level2_types ->
      value_at total r c = None.
Proof.
  destruct (compute_total_allocations_run level_1_df equities_df
              fixed_income_df strategic level_1_has_rows level_1_has_types
              equities_has_columns fixed_income_has_columns)
    as (df1 & df2 & total & Hrun & _ & H1 & H2 & _ & H3 & _).
  exists total. split; [exact Hrun|]. intros r c Hr Hcase.
  assert (He : mem r (index equities_df) && mem (snd c) level2_types = false).
  { destruct Hcase as [Hn|Hn].
    - replace (mem r (index equities_df)) with false; [reflexivity|].
      symmetry. apply mem_false. intros Hi. apply Hn, in_or_app. now left.
    - apply mem_false in Hn. rewrite Hn. apply Bool.andb_false_r. }
  assert (Hf : mem r (index fixed_income_df) && mem (snd c) level2_types
               = false).
  { destruct Hcase as [Hn|Hn].
    - replace (mem r (index fixed_income_df)) with false; [reflexivity|].
      symmetry. apply mem_false. intros Hi. apply Hn, in_or_app. now right.
    - apply mem_false in Hn. rewrite Hn. apply Bool.andb_false_r. }
  rewrite (H3 r c Hf), (H2 r c He), H1.
  apply mem_false in Hr. now rewrite Hr.
Qed.

(** X11.  The parents are looked up under the labels Equities and Fixed
    Income: when [strategic_allocations] has no key Equities, every equity
    sub-class row of the total table is empty (NaN) under the Strategic and
    Tactical columns. *)
Theorem total_table_parent_missing :
  ~ In "Equities" (keys strategic) ->
  ~ In "Equities" (index equities_df) ->
  exists total,
    compute_total_allocations level_1_df equities_df fixed_income_df strategic
      = Ok total /\
    forall l profile typ,
      In l (index equities_df) -> ~ In l (index fixed_income_df) ->
      In typ level2_types ->
      value_at total l (profile, typ) = None.
Proof.
  intros Hkey Hidx.
  destruct (compute_total_allocations_run level_1_df equities_df
              fixed_income_df strategic level_1_has_rows level_1_has_types
              equities_has_columns fixed_income_has_columns)
    as (df1 & df2 & total & Hrun & _ & H1 & _ & V2 & H3 & _).
  exists total. split; [exact Hrun|]. intros l profile typ Hl Hn Htyp.
  apply mem_false in Hn. apply mem_In in Hl, Htyp.
  rewrite H3 by (simpl snd; now rewrite Hn).
  rewrite (V2 Hidx) by (simpl snd; now rewrite Hl, Htyp).
  rewrite H1. apply mem_false in Hkey. rewrite Hkey.
  unfold cell_mul, cell_div, cell_lift2.
  now destruct (value_at equities_df l (snd (profile, typ))).
Qed.

Hypothesis row_labels_distinct :
  NoDup (keys strategic ++ index equities_df ++ index fixed_income_df).
Hypothesis equities_level_1 : In "Equities" (keys strategic).
Hypothesis fixed_income_level_1 : In "Fixed Income" (keys strategic).

(** X12.  Whatever the own-percentages of a parent's level-2 frame sum to
    under a type, the sub-class rows of the total table sum, under a column
    of that type, to that sum times the parent value divided by 100: the
    rows of tactical own-percentages that are off balance by [d] miss the
    parent value [v] by [d * v / 100]. *)
Theorem total_subclass_sum (parent : string) (level2_df : DataFrame string)
  (profile typ : string) (s v : num) :
  (parent = "Equities" /\ level2_df = equities_df) \/
  (parent = "Fixed Income" /\ level2_df = fixed_income_df) ->
  In typ level2_types ->
  cell_sum (map (fun l => value_at level2_df l typ) (index level2_df))
    = Some s ->
  value_at level_1_df parent (profile, typ) = Some v ->
  exists total,
    compute_total_allocations level_1_df equities_df fixed_income_df strategic
      = Ok total /\
    cell_sum (map (fun l => value_at total l (profile, typ))
                  (index level2_df)) = Some (s * v / hundred) /\
    s * v / hundred - v = (s - hundred) * v / hundred.
Proof.
  intros Hparent Htyp Hown Hv.
  destruct (total_rows_values level_1_df equities_df fixed_income_df strategic
              level_1_has_rows level_1_has_types equities_has_columns
              fixed_income_has_columns row_labels_distinct equities_level_1
              fixed_income_level_1) as (total & Hrun & _ & Heq & Hfi).
  assert (Hrows : forall l, In l (index level2_df) ->
            value_at total l (profile, typ) =
            cell_div (cell_mul (value_at level2_df l typ) (Some v))
                     (Some hundred)).
  { intros l Hl. destruct Hparent as [[-> ->] | [-> ->]].
    - rewrite Heq by assumption. now rewrite Hv.
    - rewrite Hfi by assumption. now rewrite Hv. }
  exists total. split; [exact Hrun|]. split.
  - rewrite (map_ext_in _ _ _ Hrows).
    apply (rebased_sum (fun l => value_at level2_df l typ) v _ s Hown).
  - field. exact hundred_nonzero.
Qed.

End ReconciliationEdges.

Lemma total_table_empty_cells_witness :
  exists total,
    compute_total_allocations example_level_1_df example_equities_df
      example_fixed_income_df
      [("Equities", []); ("Fixed Income", [])] = Ok total /\
    value_at total "Cash" ("Moderate", "Tactical") = None /\
    value_at total "Corporate" ("Moderate", "Difference") = None.
Proof.
  destruct (total_table_empty_cells example_level_1_df example_equities_df
              example_fixed_income_df
              [("Equities", []); ("Fixed Income", [])])
    as (total & Hrun & Hnone).
  - intros k Hk. in_list.
  - exact example_level_1_types.
  - exact example_equities_columns.
  - exact example_fixed_income_columns.
  - exists total. split; [exact Hrun|]. split; apply Hnone; simpl;
      intuition discriminate.
Defined.

Lemma total_table_parent_missing_witness :
  exists total,
    compute_total_allocations example_level_1_df example_equities_df
      example_fixed_income_df
      [("Fixed Income", []); ("Cash", [])] = Ok total /\
    value_at total "Large Cap Growth" ("Moderate", "Tactical") = None.
Proof.
  destruct (total_table_parent_missing example_level_1_df example_equities_df
              example_fixed_income_df
              [("Fixed Income", []); ("Cash", [])])
    as (total & Hrun & Hnone).
  - intros k Hk. in_list.
  - exact example_level_1_types.
  - exact example_equities_columns.
  - exact example_fixed_income_columns.
  - simpl. intuition discriminate.
  - simpl. intuition discriminate.
  - exists total. split; [exact Hrun|]. apply Hnone; simpl;
      intuition discriminate.
Defined.

(** The fixed-income weights 3 and -2 of the worked configuration are off
    balance by 1: under the Moderate profile the tactical sub-class rows sum
    to 33.33 where the parent has 33. *)
Lemma total_subclass_sum_witness :
  exists total,
    compute_total_allocations example_level_1_df example_equities_df
      example_fixed_income_df example_strategic = Ok total /\
    cell_sum (map (fun l => value_at total l ("Moderate", "Tactical"))
                  (index example_fixed_income_df))
    = Some (num_of_Z 101 * num_of_Z 33 / hundred).
Proof.
  assert (Hown : cell_sum (map (fun l => value_at example_fixed_income_df l
                                           "Tactical")
                               (index example_fixed_income_df))
                 = Some (num_of_Z 101))
    by (vm_compute; f_equal; apply Qc_is_canon; reflexivity).
  assert (Hv : value_at example_level_1_df "Fixed Income"
                 ("Moderate", "Tactical") = Some (num_of_Z 33))
    by (vm_compute; f_equal; apply Qc_is_canon; reflexivity).
  destruct (total_subclass_sum example_level_1_df example_equities_df
              example_fixed_income_df example_strategic
              example_level_1_rows example_level_1_types
              example_equities_columns example_fixed_income_columns
              example_labels_distinct (or_introl eq_refl)
              (or_intror (or_introl eq_refl))
              "Fixed Income" example_fixed_income_df "Moderate" "Tactical"
              (num_of_Z 101) (num_of_Z 33)
              (or_intror (conj eq_refl eq_refl))
              (or_intror (or_introl eq_refl)) Hown Hv)
    as (total & Hrun & Hsum & _).
  exists total. auto.
Defined.

(** ** [utils.py]: the Difference columns *)

Lemma column_eqb_eq (c c' : column) : column_eqb c c' = true <-> c = c'.
Proof.
  destruct c as [p t], c' as [p' t']. unfold column_eqb. simpl.
  rewrite Bool.andb_true_iff, !String.eqb_eq. split.
  - intros [-> ->]. reflexivity.
  - intros H. injection H as -> ->. auto.
Qed.

Lemma column_mem_In (c : column) (cols : list column) :
  existsb (column_eqb c) cols = true <-> In c cols.
Proof.
  rewrite existsb_exists. split.
  - intros (x & Hx & E). apply column_eqb_eq in E. now subst.
  - intros H. exists c. split; [exact H | now apply column_eqb_eq].
Qed.

Lemma find_all_false {A} (f : A -> bool) (l : list A) :
  (forall x, In x l -> f x = false) -> find f l = None.
Proof.
  induction l as [|x l IH]; intros H; simpl; [reflexivity|].
  rewrite (H x (or_introl eq_refl)). apply IH. intros y Hy. apply H. now right.
Qed.

(** The loop [for profile in profiles: df[(profile, diff_label)] = ...]. *)
Lemma difference_loop (df : DataFrame column)
  (difference : string -> string -> cell) (ps : list string)
  (d : DataFrame column) :
  (forall p, In p ps -> In (p, "Tactical") (columns df)) ->
  exists d',
    foldM (fun d profile =>
             if existsb (fun c => String.eqb (fst c) profile &&
                                  (has_type "Tactical" c ||
                                   has_type "Strategic" c))
                        (columns df)
             then Ok (set_column d (profile, "Difference")
                                 (difference profile))
             else Raise (KeyError profile))
          ps d = Ok d' /\
    index d' = index d /\
    (forall c, In c (columns d') <->
               In c (columns d) \/
               exists p, In p ps /\ c = (p, "Difference")) /\
    (forall r c, value_at d' r c =
                 if String.eqb (snd c) "Difference" && mem (fst c) ps
                 then difference (fst c) r else value_at d r c).
Proof.
  revert d; induction ps as [|p ps IH]; intros d Hcols.
  - exists d. simpl. repeat split; auto.
    + intros [H|(p & [] & _)]. exact H.
    + intros r c. now rewrite Bool.andb_false_r.
  - assert (Hp : existsb (fun c => String.eqb (fst c) p &&
                            (has_type "Tactical" c || has_type "Strategic" c))
                         (columns df) = true).
    { apply existsb_exists. exists (p, "Tactical").
      split; [apply Hcols; now left|]. simpl. now rewrite String.eqb_refl. }
    destruct (IH (set_column d (p, "Difference") (difference p)))
      as (d' & Hrun & Hidx & Hin & Hval).
    { intros q Hq. apply Hcols. now right. }
    exists d'. cbn [foldM]. rewrite Hp. simpl bind.
    split; [exact Hrun|]. split; [exact Hidx|]. split.
    + intros c. rewrite Hin. simpl columns.
      destruct (existsb (column_eqb (p, "Difference")) (columns d)) eqn:E.
      * apply column_mem_In in E. split.
        -- intros [H|(q & Hq & ->)]; [now left|]. right. exists q.
           split; [now right | reflexivity].
        -- intros [H|(q & [<-|Hq] & ->)]; [now left | now left |].
           right. eauto.
      * rewrite in_app_iff. simpl. split.
        -- intros [[H|[<-|[]]]|(q & Hq & ->)].
           ++ now left.
           ++ right. exists p. split; [now left | reflexivity].
           ++ right. exists q. split; [now right | reflexivity].
        -- intros [H|(q & [<-|Hq] & ->)].
           ++ left. now left.
           ++ left. right. now left.
           ++ right. eauto.
    + intros r c. rewrite Hval. simpl value_at. rewrite mem_cons.
      unfold column_eqb. simpl fst. simpl snd.
      destruct (String.eqb (snd c) "Difference"); simpl;
        [|now rewrite Bool.andb_false_r].
      destruct (String.eqb_spec (fst c) p) as [->|Hne]; simpl.
      * now destruct (mem p ps).
      * reflexivity.
Qed.

Lemma add_difference_column_run (df : DataFrame column)
  (profiles : list string) :
  profiles <> [] ->
  (forall p, In p profiles ->
     In (p, "Strategic") (columns df) /\ In (p, "Tactical") (columns df)) ->
  exists df' view,
    add_difference_column df profiles = Ok (df', view) /\
    index df' = index df /\ index view = index df /\
    columns view
    = flat_map (fun p => [(p, "Strategic"); (p, "Tactical");
                          (p, "Difference")]) profiles /\
    (forall c, In c (columns df') <->
               In c (columns df) \/
               exists p, In p profiles /\ c = (p, "Difference")) /\
    (forall r c, value_at view r c = value_at df' r c) /\
    (forall r p, In p profiles ->
       value_at df' r (p, "Difference")
       = cell_sub (value_at df r (p, "Tactical"))
                  (value_at df r (p, "Strategic"))) /\
    (forall r c, snd c <> "Difference" \/ ~ In (fst c) profiles ->
       value_at df' r c = value_at df r c).
Proof.
  intros Hne Hcols. unfold add_difference_column.
  destruct profiles as [|p0 ps] eqn:Eps; [contradiction|]. rewrite <- Eps in *.
  assert (Hp0 : In p0 profiles) by (rewrite Eps; now left).
  assert (HT : existsb (has_type "Tactical") (columns df) = true).
  { apply existsb_exists. exists (p0, "Tactical").
    split; [now apply Hcols | reflexivity]. }
  assert (HS : existsb (has_type "Strategic") (columns df) = true).
  { apply existsb_exists. exists (p0, "Strategic").
    split; [now apply Hcols | reflexivity]. }
  rewrite HT, HS. simpl negb. cbv iota.
  destruct (difference_loop df
              (fun profile r => cell_sub (value_at df r (profile, "Tactical"))
                                         (value_at df r (profile, "Strategic")))
              profiles df) as (d' & Hrun & Hidx & Hin & Hval).
  { intros p Hp. now apply Hcols. }
  rewrite Hrun. simpl bind.
  rewrite find_all_false.
  - exists d'. eexists. split; [reflexivity|]. simpl.
    repeat split; auto.
    + apply Hin.
    + apply Hin.
    + intros r p Hp. rewrite Hval. simpl. apply mem_In in Hp. now rewrite Hp.
    + intros r c Hc. rewrite Hval.
      destruct (String.eqb_spec (snd c) "Difference") as [E|E]; simpl;
        [|reflexivity].
      destruct Hc as [Hc|Hc]; [contradiction|].
      apply mem_false in Hc. now rewrite Hc.
  - intros c Hc. apply Bool.negb_false_iff, column_mem_In, Hin.
    apply in_flat_map in Hc as (p & Hp & Hc). destruct (Hcols p Hp).
    destruct Hc as [<-|[<-|[<-|[]]]]; eauto.
Qed.

(** X13.  On a frame that has the Strategic and the Tactical column of every
    profile, [add_difference_column] writes into the frame it was given, for
    every profile, a Difference column holding Tactical minus Strategic row
    by row, leaves every other value and the row labels as they were, and
    returns these values under the columns Strategic, Tactical, Difference
    profile by profile. *)
Theorem add_difference_column_correct (df : DataFrame column)
  (profiles : list string) :
  profiles <> [] ->
  (forall p, In p profiles ->
     In (p, "Strategic") (columns df) /\ In (p, "Tactical") (columns df)) ->
  exists df' view,
    add_difference_column df profiles = Ok (df', view) /\
    index df' = index df /\ index view = index df /\
    columns view
    = flat_map (fun p => [(p, "Strategic"); (p, "Tactical");
                          (p, "Difference")]) profiles /\
    (forall c, In c (columns df') <->
               In c (columns df) \/
               exists p, In p profiles /\ c = (p, "Difference")) /\
    (forall r c, value_at view r c = value_at df' r c) /\
    (forall r p, In p profiles ->
       value_at df' r (p, "Difference")
       = cell_sub (value_at df r (p, "Tactical"))
                  (value_at df r (p, "Strategic"))) /\
    (forall r c, snd c <> "Difference" \/ ~ In (fst c) profiles ->
       value_at df' r c = value_at df r c).
Proof. exact (add_difference_column_run df profiles). Qed.

Lemma add_difference_column_correct_witness :
  exists df' view,
    add_difference_column example_level_1_df example_profiles
      = Ok (df', view) /\
    value_at df' "Equities" ("Moderate", "Difference")
    = cell_sub (Some (num_of_Z 62)) (Some (num_of_Z 60)) /\
    value_at df' "Equities" ("Moderate", "Tactical") = Some (num_of_Z 62).
Proof.
  destruct (add_difference_column_correct example_level_1_df example_profiles)
    as (df' & view & Hrun & _ & _ & _ & _ & _ & Hdiff & Hkeep).
  - discriminate.
  - intros p Hp. in_list; vm_compute; tauto.
  - exists df', view. split; [exact Hrun|]. split.
    + rewrite Hdiff by (simpl; tauto). reflexivity.
    + rewrite Hkeep by (left; discriminate). reflexivity.
Defined.

(** ** [utils.py]: the style of a difference *)

Lemma num_ltb_lt (x y : num) : num_ltb x y = true <-> x < y.
Proof.
  unfold num_ltb, Qclt. rewrite Bool.negb_true_iff. split.
  - intros H. apply Qnot_le_lt. intros Hle.
    apply Qle_bool_iff in Hle. congruence.
  - intros H. destruct (Qle_bool y x) eqn:E; [|reflexivity].
    apply Qle_bool_iff in E. exfalso. exact (Qlt_not_le _ _ H E).
Qed.

Lemma tenth_positive : 0 < / num_of_Z 10.
Proof. reflexivity. Qed.

Lemma ten_positive : 0 < num_of_Z 10.
Proof. reflexivity. Qed.

Lemma ten_nonzero : num_of_Z 10 <> 0.
Proof. intros H. pose proof ten_positive as P. rewrite H in P. discriminate. Qed.

Lemma Qcabs_positive (v : num) : v <> 0 -> 0 < Qcabs v.
Proof.
  intros Hv. destruct (Qcle_lt_or_eq _ _ (Qcabs_nonneg v)) as [H|H];
    [exact H|]. exfalso. apply Hv.
  assert (Hle : Qcabs v <= 0) by (rewrite <- H; apply Qcle_refl).
  apply Qcabs_Qcle_condition in Hle as [H1 H2].
  apply Qcle_antisym; [exact H2|]. replace 0 with (- 0) by ring. exact H1.
Qed.

(** X14.  The style of a Difference value: none for NaN and for zero; for any
    other value green when it is positive and red when it is negative, with
    an opacity [min(1, abs(val) / 10)] that is positive, at most 1, and 1
    exactly when the value is at least 10 in absolute value. *)
Theorem difference_style_opacity :
  difference_style None = Plain /\
  difference_style (Some 0) = Plain /\
  forall v : num, v <> 0 ->
    exists a,
      (0 < v /\ difference_style (Some v) = Green a \/
       v < 0 /\ difference_style (Some v) = Red a) /\
      0 < a /\ a <= 1 /\ (a = 1 <-> num_of_Z 10 <= Qcabs v).
Proof.
  split; [reflexivity|]. split; [reflexivity|]. intros v Hv.
  exists (num_min 1 (Qcabs v / num_of_Z 10)). split.
  - unfold difference_style.
    destruct (num_ltb 0 v) eqn:Epos.
    + left. apply num_ltb_lt in Epos. auto.
    + right. destruct (num_ltb v 0) eqn:Eneg.
      * apply num_ltb_lt in Eneg. auto.
      * exfalso. apply Hv. apply Qcle_antisym.
        -- apply Qcnot_lt_le. intros H. apply num_ltb_lt in H. congruence.
        -- apply Qcnot_lt_le. intros H. apply num_ltb_lt in H. congruence.
  - pose proof (Qcabs_positive v Hv) as Habs.
    assert (Hpos : 0 < Qcabs v / num_of_Z 10).
    { unfold Qcdiv. replace 0 with (0 * / num_of_Z 10) by ring.
      apply Qcmult_lt_compat_r; [exact tenth_positive | exact Habs]. }
    assert (Hback : Qcabs v / num_of_Z 10 * num_of_Z 10 = Qcabs v)
      by (field; exact ten_nonzero).
    unfold num_min. destruct (num_ltb (Qcabs v / num_of_Z 10) 1) eqn:E.
    + apply num_ltb_lt in E. split; [exact Hpos|].
      split; [now apply Qclt_le_weak|]. split.
      * intros H. exfalso. exact (Qclt_not_eq _ _ E H).
      * intros H. exfalso.
        pose proof (Qcmult_lt_compat_r _ _ _ ten_positive E) as Hlt.
        rewrite Hback in Hlt. replace (1 * num_of_Z 10) with (num_of_Z 10)
          in Hlt by ring.
        exact (Qcle_not_lt _ _ H Hlt).
    + split; [reflexivity|]. split; [apply Qcle_refl|]. split; [|reflexivity].
      intros _.
      assert (Hge : 1 <= Qcabs v / num_of_Z 10).
      { apply Qcnot_lt_le. intros H. apply num_ltb_lt in H. congruence. }
      pose proof (Qcmult_le_compat_r _ _ (num_of_Z 10) Hge
                    (Qclt_le_weak _ _ ten_positive)) as Hle.
      rewrite Hback in Hle.
      now replace (1 * num_of_Z 10) with (num_of_Z 10) in Hle by ring.
Qed.

(** ** [display_level_1_allocations]: the level-1 frame *)

Lemma column_eq_dec (c c' : column) : {c = c'} + {c <> c'}.
Proof. repeat decide equality. Defined.

Lemma column_eqb_neq (c c' : column) : column_eqb c c' = false <-> c <> c'.
Proof.
  rewrite <- column_eqb_eq. destruct (column_eqb c c'); split; congruence.
Qed.

Lemma data_get_append (data : list (column * list num)) (c c' : column) v :
  data_get (data_append data c v) c' =
  if column_eqb c c'
  then Some (match data_get data c with Some l => l | None => [] end
             ++ v :: nil)%list
  else data_get data c'.
Proof.
  induction data as [|[c0 l0] data IH]; simpl.
  - destruct (column_eqb c c'); reflexivity.
  - destruct (column_eqb c0 c) eqn:E0; simpl.
    + apply column_eqb_eq in E0. subst c0.
      destruct (column_eqb c c'); reflexivity.
    + rewrite IH. destruct (column_eqb c c') eqn:E.
      * apply column_eqb_eq in E. subst c'. now rewrite E0.
      * reflexivity.
Qed.

Lemma data_append_columns (data : list (column * list num)) (c : column) v :
  map fst (data_append data c v) =
  if in_dec column_eq_dec c (map fst data) then map fst data
  else (map fst data ++ c :: nil)%list.
Proof.
  induction data as [|[c0 l0] data IH]; simpl; [reflexivity|].
  destruct (column_eqb c0 c) eqn:E0; simpl.
  - apply column_eqb_eq in E0. subst c0.
    destruct (column_eq_dec c c) as [E|N]; [reflexivity | contradiction].
  - apply column_eqb_neq in E0. rewrite IH.
    destruct (column_eq_dec c0 c) as [E|N]; [contradiction|].
    destruct (in_dec column_eq_dec c (map fst data)); reflexivity.
Qed.

Lemma nth_error_zip3 {A B D} (l1 : list A) (l2 : list B) (l3 : list D) i a b d :
  nth_error (zip3 l1 l2 l3) i = Some (a, b, d) <->
  nth_error l1 i = Some a /\ nth_error l2 i = Some b /\ nth_error l3 i = Some d.
Proof.
  revert l2 l3 i; induction l1 as [|x l1 IH]; intros l2 l3 i.
  - simpl. destruct i; simpl; split; [discriminate | intros [H _]; discriminate
                                      | discriminate | intros [H _]; discriminate].
  - destruct l2 as [|y l2]; [|destruct l3 as [|z l3]].
    + simpl. destruct i; simpl; split; try discriminate;
        intros (_ & H & _); discriminate.
    + simpl. destruct i; simpl; split; try discriminate;
        intros (_ & _ & H); discriminate.
    + destruct i as [|i]; simpl.
      * split; [intros H; injection H; intros; subst; auto|].
        intros (H1 & H2 & H3). congruence.
      * apply IH.
Qed.

Lemma zip3_profiles {A B} (ps : list string) (l2 : list A) (l3 : list B) :
  (List.length ps <= List.length l2)%nat ->
  (List.length ps <= List.length l3)%nat ->
  map (fun tr => fst (fst tr)) (zip3 ps l2 l3) = ps.
Proof.
  revert l2 l3; induction ps as [|p ps IH]; intros [|x l2] [|y l3] H2 H3;
    simpl in *; try reflexivity; try lia.
  f_equal. apply IH; lia.
Qed.

Lemma level_1_step_get (data : list (column * list num)) p s t c :
  data_get (level_1_step data (p, s, t)) c =
  if column_eqb (p, "Tactical") c then
    Some (match data_get data c with Some l => l | None => [] end
          ++ t :: nil)%list
  else if column_eqb (p, "Strategic") c then
    Some (match data_get data c with Some l => l | None => [] end
          ++ s :: nil)%list
  else data_get data c.
Proof.
  unfold level_1_step. rewrite data_get_append.
  destruct (column_eqb (p, "Tactical") c) eqn:ET.
  - apply column_eqb_eq in ET. subst c. rewrite data_get_append.
    rewrite (proj2 (column_eqb_neq (p, "Strategic") (p, "Tactical")));
      [reflexivity | discriminate].
  - rewrite data_get_append.
    destruct (column_eqb (p, "Strategic") c) eqn:ES; [|reflexivity].
    apply column_eqb_eq in ES. now subst c.
Qed.

Lemma level_1_fold_untouched (trs : list (string * num * num))
  (data : list (column * list num)) (c : column) :
  (forall tr, In tr trs -> fst (fst tr) <> fst c) \/
  ~ In (snd c) level2_types ->
  data_get (fold_left level_1_step trs data) c = data_get data c.
Proof.
  revert data; induction trs as [|[[p s] t] trs IH]; intros data H;
    cbn [fold_left]; [reflexivity|].
  rewrite IH.
  - rewrite level_1_step_get.
    assert (N : forall typ, In typ level2_types -> (p, typ) <> c).
    { intros typ Htyp E. subst c. simpl in H. destruct H as [H|H].
      - apply (H (p, s, t)); [now left | reflexivity].
      - contradiction. }
    rewrite (proj2 (column_eqb_neq _ _)), (proj2 (column_eqb_neq _ _));
      [reflexivity | |]; apply N; simpl; auto.
  - destruct H as [H|H]; [left | now right].
    intros tr Htr. apply H. now right.
Qed.

Lemma level_1_fold_touched (trs : list (string * num * num))
  (data : list (column * list num)) p s t :
  NoDup (map (fun tr => fst (fst tr)) trs) ->
  In (p, s, t) trs ->
  data_get (fold_left level_1_step trs data) (p, "Strategic")
  = Some (match data_get data (p, "Strategic") with
          | Some l => l | None => [] end ++ s :: nil)%list /\
  data_get (fold_left level_1_step trs data) (p, "Tactical")
  = Some (match data_get data (p, "Tactical") with
          | Some l => l | None => [] end ++ t :: nil)%list.
Proof.
  revert data; induction trs as [|[[p0 s0] t0] trs IH]; intros data Hnd Hin;
    [contradiction|].
  simpl in Hnd. inversion Hnd as [|? ? Hnot Hnd']; subst.
  destruct Hin as [E|Hin].
  - injection E as -> -> ->. cbn [fold_left].
    rewrite !level_1_fold_untouched.
    + rewrite !level_1_step_get.
      rewrite (proj2 (column_eqb_neq (p, "Tactical") (p, "Strategic")))
        by discriminate.
      rewrite !(proj2 (column_eqb_eq _ _) eq_refl). split; reflexivity.
    + left. intros tr Htr E. apply Hnot. simpl in E. rewrite <- E.
      now apply (in_map (fun tr => fst (fst tr))).
    + left. intros tr Htr E. apply Hnot. simpl in E. rewrite <- E.
      now apply (in_map (fun tr => fst (fst tr))).
  - cbn [fold_left].
    assert (Hne : p0 <> p).
    { intros ->. apply Hnot.
      now apply (in_map (fun tr => fst (fst tr)) _ _ Hin). }
    destruct (IH (level_1_step data (p0, s0, t0)) Hnd' Hin) as [HS HT].
    assert (N : forall x y, column_eqb (p0, x) (p, y) = false).
    { intros x y. apply column_eqb_neq. intros E. injection E as E _.
      contradiction. }
    rewrite HS, HT, !level_1_step_get, !N. split; reflexivity.
Qed.

Lemma level_1_step_columns_present (data : list (column * list num)) p s t :
  In (p, "Strategic") (map fst data) -> In (p, "Tactical") (map fst data) ->
  map fst (level_1_step data (p, s, t)) = map fst data.
Proof.
  intros HS HT. unfold level_1_step. rewrite !data_append_columns.
  destruct (in_dec column_eq_dec (p, "Strategic") (map fst data));
    [|contradiction].
  destruct (in_dec column_eq_dec (p, "Tactical") (map fst data));
    [reflexivity | contradiction].
Qed.

Lemma level_1_fold_columns_present (trs : list (string * num * num))
  (data : list (column * list num)) :
  (forall tr, In tr trs ->
     In (fst (fst tr), "Strategic") (map fst data) /\
     In (fst (fst tr), "Tactical") (map fst data)) ->
  map fst (fold_left level_1_step trs data) = map fst data.
Proof.
  revert data; induction trs as [|[[p s] t] trs IH]; intros data H;
    cbn [fold_left]; [reflexivity|].
  destruct (H (p, s, t) (or_introl eq_refl)) as [HS HT]. simpl in HS, HT.
  rewrite IH; rewrite level_1_step_columns_present; auto.
  intros tr Htr. apply H. now right.
Qed.

Lemma level_1_fold_columns_new (trs : list (string * num * num))
  (data : list (column * list num)) :
  NoDup (map (fun tr => fst (fst tr)) trs) ->
  (forall tr c, In tr trs -> In c (map fst data) -> fst c <> fst (fst tr)) ->
  map fst (fold_left level_1_step trs data)
  = (map fst data ++ level_1_columns (map (fun tr => fst (fst tr)) trs))%list.
Proof.
  revert data; induction trs as [|[[p s] t] trs IH]; intros data Hnd Hnew;
    cbn [fold_left map].
  - unfold level_1_columns. simpl. now rewrite app_nil_r.
  - cbn [fst] in *. inversion Hnd as [|? ? Hnot Hnd']; subst.
    assert (Hcols : map fst (level_1_step data (p, s, t))
                    = (map fst data ++
                       [(p, "Strategic"); (p, "Tactical")])%list).
    { unfold level_1_step. rewrite !data_append_columns.
      destruct (in_dec column_eq_dec (p, "Strategic") (map fst data)) as [i|n].
      - exfalso. exact (Hnew (p, s, t) _ (or_introl eq_refl) i eq_refl).
      - match goal with
        | |- context [in_dec ?d ?c ?l] => destruct (in_dec d c l) as [i|n']
        end.
        + exfalso. apply in_app_or in i as [i|[i|[]]].
          * exact (Hnew (p, s, t) _ (or_introl eq_refl) i eq_refl).
          * discriminate.
        + now rewrite <- app_assoc. }
    rewrite IH; [rewrite Hcols, <- app_assoc; reflexivity | exact Hnd' |].
    intros tr c Htr Hc. rewrite Hcols in Hc.
    apply in_app_or in Hc as [Hc|Hc].
    + apply (Hnew tr c); [now right | exact Hc].
    + assert (E : fst c = p) by (destruct Hc as [<-|[<-|[]]]; reflexivity).
      rewrite E. intros ->. apply Hnot.
      now apply (in_map (fun tr => fst (fst tr))).
Qed.

Lemma In_level_1_columns (profiles : list string) (c : column) :
  In c (level_1_columns profiles) <->
  In (fst c) profiles /\ In (snd c) level2_types.
Proof.
  unfold level_1_columns. rewrite in_flat_map. split.
  - intros (p & Hp & [<-|[<-|[]]]); simpl; auto.
  - intros [Hp Ht]. exists (fst c). split; [exact Hp|]. destruct c as [p t].
    simpl in *. destruct Ht as [<-|[<-|[]]]; auto.
Qed.

Lemma NoDup_level_1_columns (profiles : list string) :
  NoDup profiles -> NoDup (level_1_columns profiles).
Proof.
  induction 1 as [|p ps Hnot Hnd IH]; simpl; [constructor|].
  constructor; [|constructor; [|exact IH]].
  - intros [E|H]; [discriminate|].
    apply In_level_1_columns in H as [H _]. contradiction.
  - intros H. apply In_level_1_columns in H as [H _]. contradiction.
Qed.

Lemma data_get_In (data : list (column * list num)) (c : column) l :
  NoDup (map fst data) -> In (c, l) data -> data_get data c = Some l.
Proof.
  induction data as [|[c0 l0] data IH]; simpl; intros Hnd Hin; [contradiction|].
  inversion Hnd as [|? ? Hnot Hnd']; subst.
  destruct Hin as [E|Hin].
  - injection E as -> ->. now rewrite (proj2 (column_eqb_eq c c) eq_refl).
  - destruct (column_eqb c0 c) eqn:E; [|auto].
    apply column_eqb_eq in E. subst c0. exfalso. apply Hnot.
    now apply (in_map fst _ _ Hin).
Qed.

Lemma position_nth (l : list string) (j : nat) (r : string) :
  NoDup l -> nth_error l j = Some r -> position r l = Some j.
Proof.
  revert j; induction l as [|k l IH]; intros j Hnd Hj.
  - destruct j; discriminate.
  - inversion Hnd as [|? ? Hnot Hnd']; subst. destruct j as [|j]; simpl in *.
    + injection Hj as ->. now rewrite String.eqb_refl.
    + destruct (String.eqb_spec k r) as [->|Hne].
      * exfalso. apply Hnot. eapply nth_error_In; eauto.
      * now rewrite (IH j Hnd' Hj).
Qed.

Section Level1Frame.

Variables strategic tactical : dict (list num).
Variable profiles : list string.

Hypothesis profiles_distinct : NoDup profiles.
Hypothesis rows_cover_profiles :
  forall a, In a (keys strategic) ->
    exists srow trow,
      getitem strategic a = Ok srow /\ getitem tactical a = Ok trow /\
      (List.length profiles <= List.length srow)%nat /\
      (List.length profiles <= List.length trow)%nat.

Lemma level_1_data_loop (assets done : list string)
  (data : list (column * list num)) :
  incl assets (keys strategic) ->
  level_1_data_ok strategic tactical profiles done data ->
  exists data',
    foldM (fun data asset =>
             srow <- getitem strategic asset ;;
             trow <- getitem tactical asset ;;
             Ok (fold_left level_1_step (zip3 profiles srow trow) data))
          assets data = Ok data' /\
    level_1_data_ok strategic tactical profiles (done ++ assets) data'.
Proof.
  revert done data; induction assets as [|a assets IH];
    intros done data Hin Hok.
  - exists data. rewrite app_nil_r. split; [reflexivity | exact Hok].
  - destruct (rows_cover_profiles a (Hin a (or_introl eq_refl)))
      as (srow & trow & Hs & Ht & Ls & Lt).
    cbn [foldM]. rewrite Hs, Ht. cbn [bind].
    replace (done ++ a :: assets)%list with ((done ++ a :: nil) ++ assets)%list
      by (rewrite <- app_assoc; reflexivity).
    apply IH; [intros x Hx; apply Hin; now right|].
    destruct Hok as (Hempty & Hcols & Hvals).
    set (trs := zip3 profiles srow trow).
    assert (Hps : map (fun tr => fst (fst tr)) trs = profiles)
      by (apply zip3_profiles; assumption).
    split; [|split].
    + intros E. destruct done; discriminate.
    + intros _. destruct done as [|d done].
      * rewrite (Hempty eq_refl).
        rewrite level_1_fold_columns_new; [now rewrite Hps | |].
        -- now rewrite Hps.
        -- intros tr c _ [].
      * rewrite level_1_fold_columns_present; [apply Hcols; discriminate|].
        intros tr Htr. rewrite Hcols by discriminate.
        assert (Hp : In (fst (fst tr)) profiles).
        { rewrite <- Hps. now apply (in_map (fun tr => fst (fst tr))). }
        split; apply In_level_1_columns; simpl; auto.
    + intros i p Hp.
      assert (Hi : (i < List.length profiles)%nat)
        by (apply nth_error_Some; congruence).
      assert (Es : nth_error srow i = Some (nth i srow 0))
        by (apply nth_error_nth'; lia).
      assert (Et : nth_error trow i = Some (nth i trow 0))
        by (apply nth_error_nth'; lia).
      assert (Htr : In (p, nth i srow 0, nth i trow 0) trs).
      { apply (nth_error_In _ i). now apply nth_error_zip3. }
      destruct (level_1_fold_touched trs data _ _ _
                  ltac:(rewrite Hps; exact profiles_distinct) Htr) as [HS HT].
      destruct (Hvals i p Hp) as [VS VT].
      rewrite HS, HT, VS, VT, !map_app. simpl.
      unfold row_of. rewrite Hs, Ht. simpl. split; reflexivity.
Qed.

Hypothesis classes_distinct : NoDup (keys strategic).

Lemma level_1_frame_built :
  exists data df,
    level_1_data strategic tactical profiles = Ok data /\
    frame_of_lists data (keys strategic) = Ok df /\
    index df = keys strategic /\
    columns df = (match keys strategic with
                  | [] => []
                  | _ :: _ => level_1_columns profiles
                  end) /\
    forall a i p,
      In a (keys strategic) -> nth_error profiles i = Some p ->
      value_at df a (p, "Strategic") = nth_error (row_of strategic a) i /\
      value_at df a (p, "Tactical") = nth_error (row_of tactical a) i.
Proof.
  destruct (level_1_data_loop (keys strategic) [] []) as (data & Hrun & Hok).
  { apply incl_refl. }
  { split; [reflexivity|]. split; [intros H; now contradiction H|].
    intros i p _. simpl. split; reflexivity. }
  simpl app in Hok. destruct Hok as (Hempty & Hcols & Hvals).
  assert (Hdata : level_1_data strategic tactical profiles = Ok data)
    by exact Hrun.
  assert (Hlen : forall c l, In (c, l) data ->
            List.length l = List.length (keys strategic)).
  { intros c l Hin. destruct (keys strategic) as [|k ks] eqn:Ek.
    - rewrite (Hempty eq_refl) in Hin. contradiction.
    - rewrite <- Ek in *.
      assert (Hne : keys strategic <> []) by (rewrite Ek; discriminate).
      pose proof (Hcols Hne) as Hc.
      assert (Hget : data_get data c = Some l).
      { apply data_get_In; [|exact Hin].
        rewrite Hc. now apply NoDup_level_1_columns. }
      assert (Hin' : In c (level_1_columns profiles))
        by (rewrite <- Hc; now apply (in_map fst _ _ Hin)).
      apply In_level_1_columns in Hin' as [Hp Ht].
      apply In_nth_error in Hp as (i & Hi).
      destruct (Hvals i (fst c) Hi) as [VS VT]. destruct c as [p t].
      simpl in *. destruct Ht as [<-|[<-|[]]].
      + rewrite Hget in VS. rewrite VS. apply length_map.
      + rewrite Hget in VT. rewrite VT. apply length_map. }
  assert (Hcheck : forallb (fun cl => Nat.eqb (List.length (snd cl))
                                        (List.length (keys strategic))) data
                   = true).
  { apply forallb_forall. intros [c l] Hin. simpl.
    apply Nat.eqb_eq. eauto. }
  exists data. eexists. split; [exact Hdata|].
  unfold frame_of_lists. rewrite Hcheck.
  split; [reflexivity|]. split; [reflexivity|]. split.
  - simpl. destruct (keys strategic) as [|k ks] eqn:Ek.
    + now rewrite (Hempty eq_refl).
    + apply Hcols. discriminate.
  - intros a i p Ha Hp. simpl.
    apply In_nth_error in Ha as (j & Hj).
    rewrite (position_nth _ _ _ classes_distinct Hj).
    assert (Hne : keys strategic <> [])
      by (intros E; rewrite E in Hj; destruct j; discriminate).
    pose proof (Hcols Hne) as Hc.
    assert (Hpresent : forall t, In t level2_types ->
              exists l, data_get data (p, t) = Some l).
    { intros t Ht.
      assert (Hin : In (p, t) (map fst data)).
      { rewrite Hc. apply In_level_1_columns. simpl. split; [|exact Ht].
        eapply nth_error_In; eauto. }
      apply in_map_iff in Hin as ([c l] & E & Hin). simpl in E. subst c.
      exists l. apply data_get_In; [|exact Hin].
      rewrite Hc. now apply NoDup_level_1_columns. }
    destruct (Hvals i p Hp) as [VS VT].
    destruct (Hpresent "Strategic") as (lS & ES); [simpl; auto|].
    destruct (Hpresent "Tactical") as (lT & ET); [simpl; auto|].
    rewrite ES in VS |- *. rewrite ET in VT |- *. subst lS lT.
    assert (Ha : In a (keys strategic)) by (eapply nth_error_In; eauto).
    destruct (rows_cover_profiles a Ha) as (srow & trow & Hs & Ht & Ls & Lt).
    assert (Hi : (i < List.length profiles)%nat)
      by (apply nth_error_Some; congruence).
    rewrite !(map_nth_error _ _ _ Hj).
    unfold row_of. rewrite Hs, Ht. simpl.
    split; symmetry; apply nth_error_nth'; lia.
Qed.

(** X15.  When the profiles are distinct, the classes are distinct and the
    strategic and the tactical row of every class have an entry for every
    profile, [display_level_1_allocations] (active weights not shown) shows
    and returns a frame with one row per class in the order of the strategic
    table, the columns (p, Strategic), (p, Tactical) profile by profile, and
    under them the entries of the strategic and of the tactical row of the
    class at the position of the profile. *)
Theorem display_level_1_allocations_frame (log : list event) :
  exists df,
    display_level_1_allocations strategic tactical profiles false log
    = (Ok df, (log ++ StDataframe (keys strategic) :: nil)%list) /\
    index df = keys strategic /\
    columns df = (match keys strategic with
                  | [] => []
                  | _ :: _ => level_1_columns profiles
                  end) /\
    forall a i p,
      In a (keys strategic) -> nth_error profiles i = Some p ->
      value_at df a (p, "Strategic") = nth_error (row_of strategic a) i /\
      value_at df a (p, "Tactical") = nth_error (row_of tactical a) i.
Proof.
  destruct level_1_frame_built as (data & df & Hdata & Hframe & Hidx & Hrest).
  exists df. split; [|split; [exact Hidx | exact Hrest]].
  unfold display_level_1_allocations, ui_bind, ui_lift.
  rewrite Hdata, Hframe. simpl. unfold emit. now rewrite Hidx.
Qed.

End Level1Frame.

Lemma example_rows_cover_profiles :
  forall a, In a (keys example_strategic) ->
    exists srow trow,
      getitem example_strategic a = Ok srow /\
      getitem example_tactical a = Ok trow /\
      (List.length example_profiles <= List.length srow)%nat /\
      (List.length example_profiles <= List.length trow)%nat.
Proof.
  intros a Ha. in_list; eexists; eexists;
    (split; [reflexivity|]); (split; [vm_compute; reflexivity|]);
    split; apply Nat.le_refl.
Qed.

Lemma display_level_1_allocations_frame_witness :
  exists df,
    display_level_1_allocations example_strategic example_tactical
      example_profiles false []
    = (Ok df, (StDataframe ["Equities"; "Fixed Income"; "Cash"] :: nil)) /\
    value_at df "Fixed Income" ("Conservative", "Strategic")
    = Some (num_of_Z 45).
Proof.
  destruct (display_level_1_allocations_frame example_strategic
              example_tactical example_profiles) with (log := @nil event)
    as (df & Hrun & _ & _ & Hval).
  - repeat constructor; simpl; intuition discriminate.
  - exact example_rows_cover_profiles.
  - repeat constructor; simpl; intuition discriminate.
  - exists df. split; [exact Hrun|].
    destruct (Hval "Fixed Income" 2%nat "Conservative") as [HS _];
      [simpl; tauto | reflexivity | exact HS].
Defined.

(** X16.  [display_level_1_allocations] raises [KeyError] for the first class
    of the strategic table that the tactical table lacks, before anything
    is shown. *)
Theorem display_level_1_allocations_missing_class
  (strategic tactical : dict (list num)) (profiles : list string)
  (show_active_weights : bool) (log : list event)
  (found missing : list string) (k : string) :
  keys strategic = (found ++ k :: missing)%list ->
  incl found (keys tactical) ->
  ~ In k (keys tactical) ->
  display_level_1_allocations strategic tactical profiles show_active_weights
    log = (Raise (KeyError k), log).
Proof.
  intros Hkeys Hfound Hk.
  assert (Hs : forall x, In x (keys strategic) ->
            exists row, getitem strategic x = Ok row)
    by (intros x Hx; now apply getitem_in).
  unfold display_level_1_allocations, ui_bind, ui_lift, level_1_data.
  rewrite Hkeys in *. rewrite foldM_raises_at with (e := KeyError k).
  - reflexivity.
  - intros data y Hy.
    destruct (Hs y) as (srow & ->); [apply in_or_app; now left|].
    apply Hfound, getitem_in in Hy as (trow & ->). simpl. eauto.
  - intros data.
    destruct (Hs k) as (srow & ->); [apply in_or_app; right; now left|].
    simpl. now rewrite (getitem_raises tactical k Hk).
Qed.

Lemma display_level_1_allocations_missing_class_witness :
  display_level_1_allocations example_strategic
    [("Equities", []); ("Cash", [])] example_profiles false []
  = (Raise (KeyError "Fixed Income"), []).
Proof.
  apply (display_level_1_allocations_missing_class example_strategic _ _ _ _
           ("Equities" :: nil) ("Cash" :: nil)).
  - reflexivity.
  - intros x Hx. in_list.
  - simpl. intuition discriminate.
Defined.

(** ** The pipeline of [main] *)

Lemma display_asset_allocations_run (df : DataFrame column)
  (profiles : list string) (show : bool) (log : list event) :
  profiles <> [] ->
  (forall p, In p profiles ->
     In (p, "Strategic") (columns df) /\ In (p, "Tactical") (columns df)) ->
  exists df',
    display_asset_allocations df profiles show false log
    = (Ok df', (log ++ StDataframe (index df) :: nil)%list) /\
    index df' = index df /\
    incl (columns df) (columns df') /\
    (forall r c, snd c <> "Difference" -> value_at df' r c = value_at df r c) /\
    (forall r p, show = true -> In p profiles ->
       value_at df' r (p, "Difference")
       = cell_sub (value_at df r (p, "Tactical"))
                  (value_at df r (p, "Strategic"))) /\
    (show = false -> df' = df).
Proof.
  intros Hne Hcols. unfold display_asset_allocations. destruct show.
  - destruct (add_difference_column_run df profiles Hne Hcols)
      as (df' & view & Hrun & Hidx & Hidx' & _ & Hin & _ & Hdiff & Hkeep).
    exists df'. unfold ui_bind, ui_lift, st_dataframe, emit, ui_ret.
    rewrite Hrun. simpl. rewrite Hidx'.
    split; [reflexivity|]. split; [exact Hidx|]. split.
    + intros c Hc. apply Hin. now left.
    + split; [intros r c Hc; apply Hkeep; now left|].
      split; [intros r p _ Hp; now apply Hdiff | discriminate].
  - exists df. unfold ui_bind, st_dataframe, emit, ui_ret. simpl.
    split; [reflexivity|]. split; [reflexivity|].
    split; [apply incl_refl|]. split; [reflexivity|].
    split; [discriminate | reflexivity].
Qed.

Lemma entered_keys (user : User) (d : dict num) :
  keys (entered user d) = keys d.
Proof.
  unfold entered, keys. rewrite map_map. apply map_ext. now intros [k v].
Qed.

Lemma entered_getitem (user : User) (d : dict num) (k : string) :
  getitem (entered user d) k = (v <- getitem d k ;; Ok (slider user k v)).
Proof.
  induction d as [|[k' v'] d IH]; simpl; [reflexivity|].
  destruct (String.eqb_spec k' k) as [->|Hne]; [reflexivity | exact IH].
Qed.

Lemma compute_level_2_run (base aw : dict num) :
  incl (keys base) (keys aw) ->
  exists t,
    compute_level_2_tactical_allocations base aw = Ok t /\
    forall k b a, getitem base k = Ok b -> getitem aw k = Ok a ->
      getitem t k = Ok (b + a).
Proof.
  intros Hincl.
  assert (Htot : exists t, compute_level_2_tactical_allocations base aw = Ok t).
  { apply mapM_total. intros k Hk. pose proof (Hincl k Hk) as Hk'.
    apply getitem_in in Hk as (b & Hb). apply getitem_in in Hk' as (a & Ha).
    rewrite Hb, Ha. simpl. eauto. }
  destruct Htot as (t & Ht). exists t. split; [exact Ht|].
  intros k b a Hb Ha.
  pose proof (compute_level_2_shape _ _ _ Ht) as Hshape.
  assert (Hk : In k (keys base)) by (apply getitem_in; eauto).
  destruct (comprehension_getitem _ _ _ k Hshape Hk) as (v & Hv & Hg).
  rewrite Hb, Ha in Hg. simpl in Hg. congruence.
Qed.

Section MainPipeline.

Variable config : Config.
Variable user : User.

Local Abbreviation profiles := (keys (multipliers config)).
Local Abbreviation strategic := (strategic_allocations config).

(** A configuration [main] can run on: distinct profiles, at least one;
    distinct row labels; Equities and Fixed Income among the level-1
    classes; every class with a weight key that [main] provides and a row
    that has an entry for every profile; a default weight for every
    sub-class. *)
Hypothesis config_profiles : NoDup profiles /\ profiles <> [].
Hypothesis config_labels :
  NoDup (keys strategic ++ keys (equities_size_style config) ++
         keys (fixed_income_sector config)).
Hypothesis config_parents :
  In "Equities" (keys strategic) /\ In "Fixed Income" (keys strategic).
Hypothesis config_classes :
  forall a, In a (keys strategic) ->
    In (weight_key a) ["equities"; "fixed_income"; "cash"].
Hypothesis config_rows :
  forall a row, getitem strategic a = Ok row ->
    (List.length profiles <= List.length row)%nat.
Hypothesis config_defaults :
  incl (keys (equities_size_style config))
       (keys (default_equities_active_weight config)) /\
  incl (keys (fixed_income_sector config))
       (keys (default_fixed_income_active_weight config)).

(** X17.  On such a configuration [main] computes its tables whatever the
    user enters, and the total table holds: in the row of a level-1 class,
    the strategic entry and the tactical entry of the class for each
    profile; in the row of a sub-class, its baseline percentage of the
    parent's strategic entry and its baseline plus the entered weight as a
    percentage of the parent's tactical entry. *)
Theorem main_tables_total (log : list event) :
  exists tables log',
    main_tables user config log = (Ok tables, log') /\
    compute_tactical_allocations strategic (multipliers config) profiles
      (moderate_active_weight (number_input_equities user))
    = Ok (tactical_allocations tables) /\
    (forall a i p,
       In a (keys strategic) -> nth_error profiles i = Some p ->
       value_at (df_total_allocations tables) a (p, "Strategic")
       = nth_error (row_of strategic a) i /\
       value_at (df_total_allocations tables) a (p, "Tactical")
       = nth_error (row_of (tactical_allocations tables) a) i) /\
    (forall l b d i p,
       getitem (equities_size_style config) l = Ok b ->
       getitem (default_equities_active_weight config) l = Ok d ->
       nth_error profiles i = Some p ->
       value_at (df_total_allocations tables) l (p, "Strategic")
       = cell_div (cell_mul (Some b)
                            (nth_error (row_of strategic "Equities") i))
                  (Some hundred) /\
       value_at (df_total_allocations tables) l (p, "Tactical")
       = cell_div
           (cell_mul (Some (b + slider user l d))
                     (nth_error (row_of (tactical_allocations tables)
                                        "Equities") i))
           (Some hundred)) /\
    (forall l b d i p,
       getitem (fixed_income_sector config) l = Ok b ->
       getitem (default_fixed_income_active_weight config) l = Ok d ->
       nth_error profiles i = Some p ->
       value_at (df_total_allocations tables) l (p, "Strategic")
       = cell_div (cell_mul (Some b)
                            (nth_error (row_of strategic "Fixed Income") i))
                  (Some hundred) /\
       value_at (df_total_allocations tables) l (p, "Tactical")
       = cell_div
           (cell_mul (Some (b + slider user l d))
                     (nth_error (row_of (tactical_allocations tables)
                                        "Fixed Income") i))
           (Some hundred)).
Proof.
  destruct config_profiles as [Hnd Hne].
  destruct config_parents as [Heq_parent Hfi_parent].
  destruct config_defaults as [Hdef_eq Hdef_fi].
  assert (Hnd_keys : NoDup (keys strategic))
    by (eapply NoDup_app_remove_r; exact config_labels).
  (* the level-1 tactical table *)
  destruct (compute_tactical_allocations_total strategic (multipliers config)
              profiles (moderate_active_weight (number_input_equities user)))
    as (tactical & Htactical);
    [apply incl_refl | exact config_classes | exact config_rows |].
  pose proof (compute_tactical_allocations_shape _ _ _ _ _ Htactical) as Hshape.
  assert (Hcover : forall a, In a (keys strategic) ->
            exists srow trow,
              getitem strategic a = Ok srow /\ getitem tactical a = Ok trow /\
              (List.length profiles <= List.length srow)%nat /\
              (List.length profiles <= List.length trow)%nat).
  { intros a Ha. pose proof Ha as Ha'.
    apply getitem_in in Ha' as (srow & Hs).
    destruct (comprehension_getitem _ _ _ a Hshape Ha) as (trow & Ht & Hrow).
    apply tactical_row_ok in Hrow as [Hl _].
    exists srow, trow. repeat split; eauto. rewrite Hl. apply Nat.le_refl. }
  (* the level-1 frame *)
  destruct (level_1_frame_built strategic tactical profiles Hnd Hcover Hnd_keys)
    as (data & df & Hdata & Hframe & Hidx & Hcols & Hvals).
  assert (Hcols' : columns df = level_1_columns profiles).
  { rewrite Hcols. destruct (keys strategic); [contradiction | reflexivity]. }
  destruct (display_asset_allocations_run df profiles
              (toggle_show_active_weights user) log Hne)
    as (df' & Hshow & Hidx' & Hincl & Hkeep & _ & _).
  { intros p Hp. rewrite Hcols'. split; apply In_level_1_columns; simpl; auto. }
  (* the level-2 tables *)
  destruct (compute_level_2_run (equities_size_style config)
              (entered user (default_equities_active_weight config)))
    as (teq & Hteq & Hteq_val); [now rewrite entered_keys|].
  destruct (compute_level_2_run (fixed_income_sector config)
              (entered user (default_fixed_income_active_weight config)))
    as (tfi & Htfi & Htfi_val); [now rewrite entered_keys|].
  (* the total table *)
  destruct (total_rows_values df'
              (frame_of_dicts (equities_size_style config) teq
                              (keys (equities_size_style config)))
              (frame_of_dicts (fixed_income_sector config) tfi
                              (keys (fixed_income_sector config)))
              strategic)
    as (total & Htotal & Hlevel1 & Hrows_eq & Hrows_fi).
  { rewrite Hidx', Hidx. apply incl_refl. }
  { intros typ Htyp. destruct profiles as [|p0 ps] eqn:Ep;
      [contradiction|]. exists p0. apply Hincl. rewrite Hcols'.
    apply In_level_1_columns. simpl. auto. }
  { apply incl_refl. }
  { apply incl_refl. }
  { exact config_labels. }
  { exact Heq_parent. }
  { exact Hfi_parent. }
  eexists. eexists. split.
  { unfold main_tables, display_level_1_allocations, ui_bind at 1, ui_lift.
    rewrite Htactical.
    unfold ui_bind at 1. unfold ui_bind at 1, ui_lift. rewrite Hdata.
    unfold ui_bind at 1. rewrite Hframe. rewrite Hshow.
    unfold ui_bind at 1, emit.
    unfold ui_bind at 1. rewrite input_active_weights_run.
    unfold ui_bind at 1. rewrite input_active_weights_run.
    unfold ui_bind at 1. rewrite Hteq.
    unfold ui_bind at 1. rewrite Htfi.
    unfold ui_bind at 1, display_level_2_allocations, ui_bind, emit, ui_ret.
    cbn [fst snd]. rewrite Htotal. reflexivity. }
  cbn [tactical_allocations df_total_allocations].
  split; [exact Htactical|].
  assert (Hp_type : forall typ, typ = "Strategic" \/ typ = "Tactical" ->
            typ <> "Difference")
    by (intros typ [-> | ->]; discriminate).
  split; [|split].
  - intros a i p Ha Hp. rewrite !Hlevel1 by exact Ha.
    rewrite !Hkeep by (apply Hp_type; simpl; auto). now apply Hvals.
  - intros l b d i p Hb Hd Hp.
    assert (Hl : In l (keys (equities_size_style config)))
      by (apply getitem_in; eauto).
    rewrite !Hrows_eq by (simpl; auto).
    rewrite !Hkeep by (apply Hp_type; simpl; auto).
    destruct (Hvals "Equities" i p Heq_parent Hp) as [-> ->].
    simpl value_at. rewrite Hb.
    rewrite (Hteq_val l b (slider user l d) Hb)
      by (rewrite entered_getitem, Hd; reflexivity).
    split; reflexivity.
  - intros l b d i p Hb Hd Hp.
    assert (Hl : In l (keys (fixed_income_sector config)))
      by (apply getitem_in; eauto).
    rewrite !Hrows_fi by (simpl; auto).
    rewrite !Hkeep by (apply Hp_type; simpl; auto).
    destruct (Hvals "Fixed Income" i p Hfi_parent Hp) as [-> ->].
    simpl value_at. rewrite Hb.
    rewrite (Htfi_val l b (slider user l d) Hb)
      by (rewrite entered_getitem, Hd; reflexivity).
    split; reflexivity.
Qed.

End MainPipeline.

Lemma main_tables_total_witness :
  exists tables log',
    main_tables example_user example_config [] = (Ok tables, log') /\
    value_at (df_total_allocations tables) "Corporate"
             ("Moderate", "Tactical")
    = cell_div
        (cell_mul (Some (num_of_Z 50 + num_of_Z (-2)))
                  (nth_error (row_of (tactical_allocations tables)
                                     "Fixed Income") 1))
        (Some hundred).
Proof.
  destruct (main_tables_total example_config example_user) with (log := @nil event)
    as (tables & log' & Hrun & _ & _ & _ & Hfi).
  - split; [repeat constructor; simpl; intuition discriminate | discriminate].
  - vm_compute. repeat constructor; simpl; intuition discriminate.
  - simpl. tauto.
  - intros a Ha. in_list.
  - intros a row Hrow.
    assert (Ha : In a (keys (strategic_allocations example_config)))
      by (apply getitem_in; eauto).
    simpl in Ha. destruct Ha as [<-|[<-|[<-|[]]]];
      simpl in Hrow; injection Hrow as <-; apply Nat.le_refl.
  - split; apply incl_refl.
  - exists tables, log'. split; [exact Hrun|].
    destruct (Hfi "Corporate" (num_of_Z 50) (num_of_Z (-2)) 1%nat "Moderate")
      as [_ HT]; try reflexivity.
    exact HT.
Defined.
